(** * ScoNe notebook: data loader, train/dev split and zero-shot module

    A shallow embedding of the code cells of
    [examples/nli/scone/scone.ipynb]:

    - [load_scone] with its inner function [as_example],
    - the cell that seeds the generator, shuffles and slices the
      training examples,
    - the class [ScoNeCoT] with its method [forward].

    pandas, [glob], [random] and dspy are libraries the notebook calls.
    They enter the development as follows.

    - A data frame is a list of column labels and a list of rows. What
      [glob.glob] lists and what [pd.read_csv] returns for a path are
      given by a [FileSystem]. The dtype of a column is read off its
      cells, and [pd.concat] casts the cells of a column to the dtype the
      column has in the result: the ints of a column that another frame
      lacks become floats.
    - Python exceptions are values of [exn]; a computation that may raise
      has type [result A].
    - A [str] is a [string] whose characters stand for the code points
      below 256. [str.lower] on that range is [lower_char].
    - The generator of the [random] module is a [Generator]: a state, the
      state [random.seed] installs and the draw [_randbelow].
    - The predictor built by [dspy.ChainOfThought] is a [Predictor]. *)

From Stdlib Require Import Ascii String.
From Stdlib Require SpecFloat.
From stdpp Require Import base option list strings.

(** ** Exceptions *)

Inductive exn :=
| KeyError (key : string)
| IndexError
| TypeError
| ValueError
| OSError (path : string)
| ParserError (path : string)
| LMError (msg : string).

Inductive result (A : Type) :=
| Ok (a : A)
| Raise (e : exn).
Arguments Ok {A} a.
Arguments Raise {A} e.

#[global] Instance result_ret : MRet result := fun A a => Ok a.
#[global] Instance result_bind : MBind result := fun A B f m =>
  match m with
  | Ok a => f a
  | Raise e => Raise e
  end.

(** A [for] loop or a row-wise [apply] whose body may raise: the first
    exception ends the loop. *)
Fixpoint mapM_result {A B} (f : A -> result B) (l : list A) : result (list B) :=
  match l with
  | [] => Ok []
  | a :: l' => b ← f a; bs ← mapM_result f l'; Ok (b :: bs)
  end.

(** ** Strings *)

Module Str.

(** [str.lower] on one code point below 256: the letters A-Z and the
    Latin-1 capitals U+00C0-U+00DE, without the sign U+00D7, move up
    by 32. *)
Definition lower_char (c : ascii) : ascii :=
  let n := nat_of_ascii c in
  if ((65 <=? n) && (n <=? 90)) || ((192 <=? n) && (n <=? 222) && negb (n =? 215))
  then ascii_of_nat (n + 32)
  else c.

Fixpoint lower (s : string) : string :=
  match s with
  | EmptyString => EmptyString
  | String c s' => String (lower_char c) (lower s')
  end.

(** [c in chars] *)
Fixpoint mem (c : ascii) (chars : string) : bool :=
  match chars with
  | EmptyString => false
  | String d chars' => Ascii.eqb c d || mem c chars'
  end.

Fixpoint lstrip (chars s : string) : string :=
  match s with
  | EmptyString => EmptyString
  | String c s' => if mem c chars then lstrip chars s' else s
  end.

Fixpoint rstrip (chars s : string) : string :=
  match s with
  | EmptyString => EmptyString
  | String c s' =>
      match rstrip chars s' with
      | EmptyString => if mem c chars then EmptyString else String c EmptyString
      | r => String c r
      end
  end.

(** [s.strip(chars)] *)
Definition strip (chars s : string) : string := rstrip chars (lstrip chars s).

(** [s[0]]: a string of one character. *)
Definition first (s : string) : result string :=
  match s with
  | EmptyString => Raise IndexError
  | String c _ => Ok (String c EmptyString)
  end.

(** [s[1:]] *)
Definition tail (s : string) : string :=
  match s with
  | EmptyString => EmptyString
  | String _ s' => s'
  end.

Fixpoint starts_with (p s : string) : bool :=
  match p, s with
  | EmptyString, _ => true
  | String a p', String b s' => Ascii.eqb a b && starts_with p' s'
  | String _ _, EmptyString => false
  end.

(** [s.replace(old, "")] for a non-empty [old]: the occurrences of
    [old] are removed from left to right, without overlap. [skip]
    counts the characters of a match that are still to be dropped. *)
Fixpoint remove_from (old : string) (skip : nat) (s : string) : string :=
  match s with
  | EmptyString => EmptyString
  | String c s' =>
      match skip with
      | S k => remove_from old k s'
      | O =>
          if starts_with old s
          then remove_from old (String.length old - 1) s'
          else String c (remove_from old 0 s')
      end
  end.

Definition remove (old s : string) : string := remove_from old 0 s.

(** [os.path.basename]: what follows the last slash. *)
Fixpoint basename (s : string) : string :=
  match s with
  | EmptyString => EmptyString
  | String c s' =>
      if mem "/"%char s' then basename s'
      else if Ascii.eqb c "/" then s' else s
  end.

End Str.

(** ** Cells, rows and frames *)

(** The objects a cell of a frame holds: a [str], the float [nan] that
    pandas writes for a value that is missing, an int, or a float other
    than [nan], as a binary64 of IEEE 754. *)
Inductive value :=
| VStr (s : string)
| VNaN
| VInt (z : Z)
| VFloat (x : SpecFloat.spec_float).

(** The float an int is cast to: the binary64 nearest to it, a tie going
    to the even one. *)
Definition float_of_int (z : Z) : SpecFloat.spec_float :=
  SpecFloat.binary_normalize 53 1024 z 0 false.

(** [v == s] for a [str] literal [s] *)
Definition eq_str (v : value) (s : string) : bool :=
  match v with
  | VStr s' => String.eqb s' s
  | _ => false
  end.

(** A row handed to the function of [DataFrame.apply(..., axis=1)]: a
    Series whose index is the column labels of the frame. *)
Record Series := { index : list string; cell : string -> value }.

(** [row[key]] *)
Definition getitem (row : Series) (key : string) : result value :=
  if bool_decide (key ∈ index row) then Ok (cell row key) else Raise (KeyError key).

Record DataFrame := { columns : list string; rows : list (string -> value) }.

(** [df[key] = v] for a scalar [v]: an existing column is overwritten in
    place, a new one is added last. *)
Definition setitem (df : DataFrame) (key : string) (v : value) : DataFrame :=
  {| columns := if bool_decide (key ∈ columns df) then columns df else columns df ++ [key];
     rows := (fun r k => if String.eqb k key then v else r k) <$> rows df |}.

Definition add_label (acc : list string) (k : string) : list string :=
  if bool_decide (k ∈ acc) then acc else acc ++ [k].

(** The columns of [pd.concat(dfs)]: the labels of all frames, each once,
    in the order in which they first appear. *)
Definition union_columns (dfs : list DataFrame) : list string :=
  foldl (fun acc df => foldl add_label acc (columns df)) [] dfs.

(** The dtypes of the columns that [read_csv] makes of ints, floats and
    text. *)
Inductive dtype := Int64 | Float64 | Object.

(** The common dtype of two: [object] takes all, [float64] takes
    [int64]. *)
Definition dtype_join (a b : dtype) : dtype :=
  match a, b with
  | Object, _ | _, Object => Object
  | Float64, _ | _, Float64 => Float64
  | Int64, Int64 => Int64
  end.

Definition kind_of (v : value) : dtype :=
  match v with
  | VStr _ => Object
  | VNaN | VFloat _ => Float64
  | VInt _ => Int64
  end.

(** The dtype with which the column [k] of [df] enters the
    concatenation: that of its cells when [df] has the column and rows,
    [object] when it has the column and no row, and [float64], the dtype
    of the [nan] that fills it, when [df] lacks the column. *)
Definition column_dtype (df : DataFrame) (k : string) : dtype :=
  if bool_decide (k ∈ columns df) then
    match rows df with
    | [] => Object
    | rs => foldr (fun r d => dtype_join (kind_of (r k)) d) Int64 rs
    end
  else Float64.

(** The dtype of the column [k] of [pd.concat(dfs)]. *)
Definition result_dtype (dfs : list DataFrame) (k : string) : dtype :=
  foldr (fun df d => dtype_join (column_dtype df k) d) Int64 dfs.

(** A cell cast to the dtype of its column: an int becomes a float in a
    column of dtype [float64], every other cell stays as it is. *)
Definition astype (d : dtype) (v : value) : value :=
  match d, v with
  | Float64, VInt z => VFloat (float_of_int z)
  | _, _ => v
  end.

(** A row of the frame [df] as it stands in the concatenation of [dfs]:
    a cell is cast to the dtype of its column there, and a column that
    [df] lacks holds [nan]. *)
Definition reindex (dfs : list DataFrame) (df : DataFrame) (r : string -> value)
  : string -> value :=
  fun k => if bool_decide (k ∈ columns df)
           then astype (result_dtype dfs k) (r k)
           else VNaN.

(** [pd.concat(dfs)]: the rows of the frames one after the other, over
    the union of their columns, every column in its common dtype.
    Without a frame it raises [ValueError] (no objects to
    concatenate). *)
Definition pd_concat (dfs : list DataFrame) : result DataFrame :=
  match dfs with
  | [] => Raise ValueError
  | _ => Ok {| columns := union_columns dfs;
               rows := df ← dfs; reindex dfs df <$> rows df |}
  end.

Definition iterrows (df : DataFrame) : list Series :=
  (fun r => {| index := columns df; cell := r |}) <$> rows df.

(** [list(df.apply(f, axis=1).values)]: [f] on every row in turn. On a
    frame without rows pandas returns a result without rows; an
    exception of the trial call it makes there is discarded. *)
Definition apply_rows {A} (f : Series -> result A) (df : DataFrame) : result (list A) :=
  mapM_result f (iterrows df).

(** ** The file system *)

Record FileSystem := {
  glob : string -> list string;
  read_csv : string -> result DataFrame   (* [pd.read_csv(path, index_col=0)] *)
}.

(** ** Examples *)

Record Example := {
  context : value;
  question : string;
  answer : string;
  category : value;
  input_keys : option (list string)
}.

(** [dspy.Example({...})] *)
Definition mkExample (context : value) (question answer : string) (category : value) : Example :=
  {| context := context; question := question; answer := answer;
     category := category; input_keys := None |}.

Definition with_inputs (e : Example) (keys : list string) : Example :=
  {| context := context e; question := question e; answer := answer e;
     category := category e; input_keys := Some keys |}.

(** ** The loader *)

(** [v[0]] *)
Definition subscript0 (v : value) : result string :=
  match v with
  | VStr s => Str.first s
  | _ => Raise TypeError
  end.

(** [v[1:]] *)
Definition slice1 (v : value) : result string :=
  match v with
  | VStr s => Ok (Str.tail s)
  | _ => Raise TypeError
  end.

Definition suffix_of (cat : value) : string :=
  if eq_str cat "one_scoped" then "" else "_edited".

Definition as_example (row : Series) : result Example :=
  cat ← getitem row "category";
  let suffix := suffix_of cat in
  let hkey := "sentence2" +:+ suffix in
  h ← getitem row hkey;
  c ← subscript0 h;
  h' ← getitem row hkey;
  t ← slice1 h';
  let question := Str.lower c +:+ Str.strip "." t in
  let question := "Can we logically conclude for sure that " +:+ question +:+ "?" in
  g ← getitem row ("gold_label" +:+ suffix);
  let label := if eq_str g "entailment" then "Yes" else "No" in
  s ← getitem row ("sentence1" +:+ suffix);
  cat' ← getitem row "category";
  Ok (with_inputs (mkExample s question label cat') ["context"; "question"]).

Definition category_of (filename : string) : string :=
  Str.remove ".csv" (Str.basename filename).

Definition read_frame (fs : FileSystem) (filename : string) : result DataFrame :=
  df ← read_csv fs filename;
  Ok (setitem df "category" (VStr (category_of filename))).

(** The [for] loop over [glob.glob(dirname + "/*.csv")] *)
Definition read_frames (fs : FileSystem) (dirname : string) : result (list DataFrame) :=
  mapM_result (read_frame fs) (glob fs (dirname +:+ "/*.csv")).

Definition load_scone (fs : FileSystem) (dirname : string) : result (list Example) :=
  dfs ← read_frames fs dirname;
  data_df ← pd_concat dfs;
  apply_rows as_example data_df.

(** ** The generator of [random], [shuffle] and the split *)

(** The module-level generator: [seed a] is the state that
    [random.seed(a)] installs, whatever the state before; [randbelow n]
    draws an integer below [n] and moves the state on. *)
Record Generator := {
  gen_state : Type;
  seed : Z -> gen_state;
  randbelow : nat -> gen_state -> nat * gen_state;
  randbelow_lt : forall n g, 0 < n -> (randbelow n g).1 < n
}.

Section Split.
Context (G : Generator) {A : Type}.

(** [x[i], x[j] = x[j], x[i]] *)
Definition swap (x : list A) (i j : nat) : result (list A) :=
  match x !! j, x !! i with
  | Some xj, Some xi => Ok (<[j := xi]> (<[i := xj]> x))
  | _, _ => Raise IndexError
  end.

(** The loop of [random.shuffle]:
    [for i in reversed(range(1, len(x))): j = randbelow(i + 1); swap],
    from index [i] down to 1. *)
Fixpoint shuffle_from (i : nat) (x : list A) (g : gen_state G)
  : result (list A) * gen_state G :=
  match i with
  | 0 => (Ok x, g)
  | S i' =>
      let (j, g') := randbelow G (i + 1) g in
      match swap x i j with
      | Ok x' => shuffle_from i' x' g'
      | Raise e => (Raise e, g')
      end
  end.

Definition shuffle (x : list A) (g : gen_state G) : result (list A) * gen_state G :=
  shuffle_from (length x - 1) x g.

(** The cell
    [random.seed(1); random.shuffle(all_train);
     train, dev = all_train[:200], all_train[200:250]],
    run with the generator in state [g]. *)
Definition train_dev (all_train : list A) (g : gen_state G)
  : result (list A * list A) * gen_state G :=
  let g := seed G 1 in
  let (r, g) := shuffle all_train g in
  match r with
  | Ok all_train => (Ok (take 200 all_train, take 50 (drop 200 all_train)), g)
  | Raise e => (Raise e, g)
  end.
End Split.

(** ** The module *)

Record Signature := {
  instructions : string;
  input_fields : list string;
  output_fields : list (string * string)   (* name, desc *)
}.

Definition ScoNeSignature : Signature :=
  {| instructions :=
       "You are given some context (a premise) and a question (a hypothesis). "
       +:+ "You must indicate with Yes/No answer whether we can logically "
       +:+ "conclude the hypothesis from the premise.";
     input_fields := ["context"; "question"];
     output_fields := [("answer", "Yes or No")] |}.

(** Keyword arguments of a call, in the order they are written. *)
Definition kwargs := list (string * string).

(** What [dspy.ChainOfThought(signature)] returns: an object that is
    called with keyword arguments, returns a prediction or raises, and
    may change the world outside the module (the language model, its
    cache and history). *)
Record Predictor (World Prediction : Type) := {
  predict : kwargs -> World -> result Prediction * World
}.
Arguments predict {World Prediction} _ _ _.

Record ScoNeCoT (World Prediction : Type) := {
  generate_answer : Predictor World Prediction
}.
Arguments generate_answer {World Prediction} _.

Section Module.
Context {World Prediction : Type}.

(** [__init__] *)
Definition ScoNeCoT_init (ChainOfThought : Signature -> Predictor World Prediction)
  : ScoNeCoT World Prediction :=
  {| generate_answer := ChainOfThought ScoNeSignature |}.

(** [forward]: the outcome, the object after the call and the world
    after the call. *)
Definition forward (self : ScoNeCoT World Prediction) (context question : string)
    (w : World) : result Prediction * ScoNeCoT World Prediction * World :=
  let (r, w') := predict (generate_answer self) [("context", context); ("question", question)] w in
  (r, self, w').

(** A predictor that writes every call it receives to a log kept next
    to the world. *)
Definition logged (p : Predictor World Prediction)
  : Predictor (World * list kwargs) Prediction :=
  {| predict := fun kw '(w, log) =>
       let (r, w') := predict p kw w in (r, (w', log ++ [kw])) |}.
End Module.

(** ** Building rows and file systems from literals *)

Fixpoint row_of (l : list (string * value)) (k : string) : value :=
  match l with
  | [] => VNaN
  | (k', v) :: l' => if String.eqb k' k then v else row_of l' k
  end.

(** A directory [dirname] that holds the given files, in the order in
    which [glob] lists them, each with what [read_csv] makes of it. *)
Fixpoint lookup_file (files : list (string * result DataFrame)) (path : string)
  : result DataFrame :=
  match files with
  | [] => Raise (OSError path)
  | (p, r) :: files' => if String.eqb p path then r else lookup_file files' path
  end.

Definition directory (dirname : string) (files : list (string * result DataFrame))
  : FileSystem :=
  {| glob := fun pattern =>
       if String.eqb pattern (dirname +:+ "/*.csv") then files.*1 else [];
     read_csv := lookup_file files |}.

(** ** Vocabulary of the statements *)

(** The rows [as_example] is applied to when the frames [dfs] were read:
    the rows of the concatenated frame. *)
Definition data_rows (dfs : list DataFrame) : list Series :=
  (fun r => {| index := union_columns dfs; cell := r |})
    <$> (df ← dfs; reindex dfs df <$> rows df).

(** The number of data rows of the frames. *)
Definition total_rows (dfs : list DataFrame) : nat :=
  sum_list_with (fun df => length (rows df)) dfs.

(** The number of data rows in the files of a directory. *)
Definition count_rows (fs : FileSystem) (dirname : string) : nat :=
  sum_list_with
    (fun filename =>
       match read_csv fs filename with
       | Ok df => length (rows df)
       | Raise _ => 0
       end)
    (glob fs (dirname +:+ "/*.csv")).

(** The columns the specification names as the source of a row of
    category [cat]: the plain ones for [one_scoped], the ones that end in
    [_edited] for every other category. *)
Definition premise_column (cat : value) : string :=
  if eq_str cat "one_scoped" then "sentence1" else "sentence1_edited".

Definition hypothesis_column (cat : value) : string :=
  if eq_str cat "one_scoped" then "sentence2" else "sentence2_edited".

Definition gold_label_column (cat : value) : string :=
  if eq_str cat "one_scoped" then "gold_label" else "gold_label_edited".

Definition source_columns (cat : value) : list string :=
  [premise_column cat; hypothesis_column cat; gold_label_column cat].

Definition premise_field (row : Series) : value :=
  cell row (premise_column (cell row "category")).

Definition hypothesis_field (row : Series) : value :=
  cell row (hypothesis_column (cell row "category")).

Definition gold_label_field (row : Series) : value :=
  cell row (gold_label_column (cell row "category")).

(** The question made of a hypothesis with first character [c] and
    remainder [t]. *)
Definition question_of (c : ascii) (t : string) : string :=
  "Can we logically conclude for sure that "
  +:+ String (Str.lower_char c) (Str.strip "." t) +:+ "?".

(** [n] periods *)
Fixpoint periods (n : nat) : string :=
  match n with
  | 0 => EmptyString
  | S n' => String "." (periods n')
  end.

(** A row of the concatenated frame that has the three columns of its
    category and a hypothesis that is a non-empty [str]. *)
Definition loadable (row : Series) : Prop :=
  "category" ∈ index row /\
  Forall (fun k => k ∈ index row) (source_columns (cell row "category")) /\
  exists c t, hypothesis_field row = VStr (String c t).

(** A valid data row [r] of the file [filename] read as [df]: the file
    has the three columns of its category and the hypothesis of the row
    is a non-empty [str]. *)
Definition valid_row (filename : string) (df : DataFrame) (r : string -> value) : Prop :=
  Forall (fun k => k ∈ columns df) (source_columns (VStr (category_of filename))) /\
  exists c t, r (hypothesis_column (VStr (category_of filename))) = VStr (String c t).

(** [row] without the column [k] *)
Definition without_column (k : string) (row : Series) : Series :=
  {| index := filter (fun k' => k' <> k) (index row); cell := cell row |}.

(** [as_example] reads the column [k] of [row]: without it, it raises
    [KeyError k]. *)
Definition reads_column (row : Series) (k : string) : bool :=
  match as_example (without_column k row) with
  | Raise (KeyError k') => String.eqb k' k
  | _ => false
  end.

(** The source fields that [as_example] reads from the column whose name
    ends in [_edited]. *)
Definition suffixed_fields (row : Series) : list string :=
  filter (fun field => reads_column row (field +:+ "_edited") = true)
         ["sentence1"; "sentence2"; "gold_label"].

(** ** Sample data *)

Definition frame (cols : list string) (rws : list (list (string * value))) : DataFrame :=
  {| columns := cols; rows := row_of <$> rws |}.

Definition one_scoped_csv : DataFrame :=
  frame ["sentence1"; "sentence2"; "gold_label"]
    [ [("sentence1", VStr "There is a cat but not a single dog.");
       ("sentence2", VStr "there is not a single dog");
       ("gold_label", VStr "entailment")];
      [("sentence1", VStr "The man does not own a dog.");
       ("sentence2", VStr "The man does not own a poodle.");
       ("gold_label", VStr "neutral")] ].

Definition no_negation_csv : DataFrame :=
  frame ["sentence1_edited"; "sentence2_edited"; "gold_label_edited"]
    [ [("sentence1_edited", VStr "The girl owns a poodle.");
       ("sentence2_edited", VStr "The girl owns a dog.");
       ("gold_label_edited", VStr "entailment")] ].

(** A file that lacks the column [gold_label_edited]. *)
Definition unlabelled_csv : DataFrame :=
  frame ["sentence1_edited"; "sentence2_edited"]
    [ [("sentence1_edited", VStr "The boy did not see a bird.");
       ("sentence2_edited", VStr "The boy did not see an animal.")] ].

Definition header_only_csv : DataFrame :=
  frame ["sentence1_edited"; "sentence2_edited"; "gold_label_edited"] [].

Definition train_dir : FileSystem :=
  directory "train"
    [("train/one_scoped.csv", Ok one_scoped_csv);
     ("train/no_negation.csv", Ok no_negation_csv)].

Definition train_dir_with_header_only : FileSystem :=
  directory "train"
    [("train/one_scoped.csv", Ok one_scoped_csv);
     ("train/one_not_scoped.csv", Ok header_only_csv);
     ("train/no_negation.csv", Ok no_negation_csv)].

Definition empty_dir : FileSystem := directory "train" [].

Definition unlabelled_dir : FileSystem :=
  directory "train"
    [("train/no_negation.csv", Ok no_negation_csv);
     ("train/one_not_scoped.csv", Ok unlabelled_csv)].

(** The first row of [one_scoped.csv] as [as_example] receives it when
    the file is loaded alone. *)
Definition dog_row : Series :=
  {| index := ["sentence1"; "sentence2"; "gold_label"; "category"];
     cell := row_of [("sentence1", VStr "There is a cat but not a single dog.");
                     ("sentence2", VStr "there is not a single dog");
                     ("gold_label", VStr "entailment");
                     ("category", VStr "one_scoped")] |}.

(** A row of another category that has the columns of both kinds, with
    different contents. *)
Definition both_kinds_row : Series :=
  {| index := ["sentence1"; "sentence2"; "gold_label";
               "sentence1_edited"; "sentence2_edited"; "gold_label_edited"; "category"];
     cell := row_of [("sentence1", VStr "The girl owns a dog.");
                     ("sentence2", VStr "The girl owns a poodle.");
                     ("gold_label", VStr "neutral");
                     ("sentence1_edited", VStr "The girl owns a poodle.");
                     ("sentence2_edited", VStr "The girl owns a dog...");
                     ("gold_label_edited", VStr "entailment");
                     ("category", VStr "no_negation")] |}.

(** A row whose hypothesis is the empty string. *)
Definition empty_hypothesis_row : Series :=
  {| index := ["sentence1"; "sentence2"; "gold_label"; "category"];
     cell := row_of [("sentence1", VStr "There is a cat.");
                     ("sentence2", VStr "");
                     ("gold_label", VStr "neutral");
                     ("category", VStr "one_scoped")] |}.

(** A linear congruential generator. *)
Definition lcg : Generator :=
  {| gen_state := nat;
     seed := fun a => Z.to_nat (Z.abs a);
     randbelow := fun n g => (g `mod` n, (75 * g + 74) `mod` 4093);
     randbelow_lt := fun n g H => Nat.mod_upper_bound g n (Nat.neq_sym _ _ (Nat.lt_neq _ _ H)) |}.

(** ** The cells around the loader *)

Section Cells.
Context (G : Generator).

(** The cell
    [all_train = load_scone("ScoNe/scone_nli/train"); random.seed(1);
     random.shuffle(all_train);
     train, dev = all_train[:200], all_train[200:250]].
    When the load raises, the generator has not been seeded. *)
Definition train_cell (fs : FileSystem) (g : gen_state G)
  : result (list Example * list Example) * gen_state G :=
  match load_scone fs "ScoNe/scone_nli/train" with
  | Ok all_train => train_dev G all_train g
  | Raise e => (Raise e, g)
  end.

(** The cell
    [random.seed(1); test = load_scone(dirname="ScoNe/scone_nli/test");
     test = [ex for ex in test if ex.category == "one_scoped"]]. *)
Definition test_cell (fs : FileSystem) (g : gen_state G)
  : result (list Example) * gen_state G :=
  let g := seed G 1 in
  match load_scone fs "ScoNe/scone_nli/test" with
  | Ok test =>
      (Ok (filter (fun ex => eq_str (category ex) "one_scoped" = true) test), g)
  | Raise e => (Raise e, g)
  end.
End Cells.

(** ** The rows of the files, one by one *)

(** The data rows of a directory, each with the path and the frame of its
    file, in the order of [glob] and of the files. A file that cannot be
    read has none. *)
Definition source_rows (fs : FileSystem) (dirname : string)
  : list (string * DataFrame * (string -> value)) :=
  filename ← glob fs (dirname +:+ "/*.csv");
  match read_csv fs filename with
  | Ok df => (fun r => (filename, df, r)) <$> rows df
  | Raise _ => []
  end.

(** The cell of a row of [df] under a label: [nan] when [df] lacks the
    column. *)
Definition own_cell (df : DataFrame) (r : string -> value) (k : string) : value :=
  if bool_decide (k ∈ columns df) then r k else VNaN.

(** The Example of a data row, written from the row and its file alone:
    the category is the name of the file, the other fields come from the
    columns of that category. *)
Definition example_of_source (src : string * DataFrame * (string -> value)) : Example :=
  let '(filename, df, r) := src in
  let cat := VStr (category_of filename) in
  {| context := own_cell df r (premise_column cat);
     question := match own_cell df r (hypothesis_column cat) with
                 | VStr (String c t) => question_of c t
                 | _ => EmptyString
                 end;
     answer := if eq_str (own_cell df r (gold_label_column cat)) "entailment"
               then "Yes" else "No";
     category := cat;
     input_keys := Some ["context"; "question"] |}.

(** [v'] is [v] or the float [v] is cast to. *)
Definition upcast_of (v v' : value) : Prop :=
  v' = v \/ exists z, v = VInt z /\ v' = VFloat (float_of_int z).

(** [v] and [v'] are the same cell, but for an int that stands as the
    float it is cast to in one of them. *)
Definition same_cell (v v' : value) : Prop :=
  upcast_of v v' \/ upcast_of v' v.

(** Two Examples that differ at most in the dtype of a number that is
    their premise. *)
Definition same_example (e e' : Example) : Prop :=
  same_cell (context e) (context e') /\
  question e = question e' /\
  answer e = answer e' /\
  category e = category e' /\
  input_keys e = input_keys e'.

(** [e] is the Example of the data row [src], with its premise as it is
    in the file or, for an int, cast to a float. *)
Definition loaded_from (src : string * DataFrame * (string -> value)) (e : Example)
  : Prop :=
  upcast_of (context (example_of_source src)) (context e) /\
  question e = question (example_of_source src) /\
  answer e = answer (example_of_source src) /\
  category e = category (example_of_source src) /\
  input_keys e = input_keys (example_of_source src).

(** The Example of a data row in the concatenation of the frames [dfs]:
    that of the row, with the premise cast to the dtype its column has
    there. *)
Definition example_in (dfs : list DataFrame)
    (src : string * DataFrame * (string -> value)) : Example :=
  let '(filename, df, r) := src in
  let cat := VStr (category_of filename) in
  {| context := astype (result_dtype dfs (premise_column cat))
                       (own_cell df r (premise_column cat));
     question := question (example_of_source src);
     answer := answer (example_of_source src);
     category := cat;
     input_keys := Some ["context"; "question"] |}.

(** A data row that has, among the column labels [cols], [category] and
    the columns of its category, and whose hypothesis is a non-empty
    [str]. *)
Definition source_ok (cols : list string)
    (src : string * DataFrame * (string -> value)) : Prop :=
  let '(filename, df, r) := src in
  let cat := VStr (category_of filename) in
  "category" ∈ cols /\
  Forall (fun k => k ∈ cols) (source_columns cat) /\
  exists c t, own_cell df r (hypothesis_column cat) = VStr (String c t).

(** The rows of the frames [dfs] under the column labels [cols], in the
    concatenation of the frames [all]. *)
Definition rows_under (cols : list string) (all dfs : list DataFrame) : list Series :=
  (fun r => {| index := cols; cell := r |})
    <$> (df ← dfs; reindex all df <$> rows df).

(** The row of a file as it reaches [as_example] in the concatenation of
    the frames [all], under the column labels [cols]. *)
Definition row_in (all : list DataFrame) (cols : list string)
    (src : string * DataFrame * (string -> value)) : Series :=
  let '(filename, df, r) := src in
  {| index := cols;
     cell := reindex all (setitem df "category" (VStr (category_of filename)))
               (fun k => if String.eqb k "category"
                         then VStr (category_of filename) else r k) |}.

(** The exceptions [as_example] can raise on [row], each with its cause. *)
Definition raise_cause (row : Series) (e : exn) : Prop :=
  (exists k, e = KeyError k /\
             k ∈ "category" :: source_columns (cell row "category") /\
             k ∉ index row) \/
  (e = IndexError /\ hypothesis_field row = VStr "") \/
  (e = TypeError /\ forall s, hypothesis_field row <> VStr s).

(** A file of 250 rows under the names of the category [one_scoped]. *)
Definition large_csv : DataFrame :=
  {| columns := ["sentence1"; "sentence2"; "gold_label"];
     rows := replicate 250
               (row_of [("sentence1", VStr "The man does not own a dog.");
                        ("sentence2", VStr "The man does not own a poodle.");
                        ("gold_label", VStr "neutral")]) |}.

Definition large_train_dir : FileSystem :=
  directory "ScoNe/scone_nli/train"
    [("ScoNe/scone_nli/train/one_scoped.csv", Ok large_csv)].

Definition test_dir : FileSystem :=
  directory "ScoNe/scone_nli/test"
    [("ScoNe/scone_nli/test/one_scoped.csv", Ok one_scoped_csv);
     ("ScoNe/scone_nli/test/no_negation.csv", Ok no_negation_csv)].

Definition one_scoped_dir : FileSystem :=
  directory "train" [("train/one_scoped.csv", Ok one_scoped_csv)].

Definition no_negation_dir : FileSystem :=
  directory "train" [("train/no_negation.csv", Ok no_negation_csv)].

(** The files of [train_dir] listed the other way round. *)
Definition train_dir_reversed : FileSystem :=
  directory "train"
    [("train/no_negation.csv", Ok no_negation_csv);
     ("train/one_scoped.csv", Ok one_scoped_csv)].

(** A row of a file without the column [sentence2_edited], next to a
    file that has it: the hypothesis is [nan]. *)
Definition nan_hypothesis_row : Series :=
  {| index := ["sentence1_edited"; "sentence2_edited"; "gold_label_edited"; "category"];
     cell := row_of [("sentence1_edited", VStr "The boy did not see a bird.");
                     ("sentence2_edited", VNaN);
                     ("gold_label_edited", VStr "neutral");
                     ("category", VStr "one_not_scoped")] |}.

(** What every Example of the loader satisfies. *)
Definition well_formed (e : Example) : Prop :=
  (answer e = "Yes" \/ answer e = "No") /\
  (exists c t, question e = question_of c t) /\
  (exists s, category e = VStr s) /\
  input_keys e = Some (input_fields ScoNeSignature).

(** A file that lacks the column [sentence2_edited], and a directory
    that holds it after a complete file. *)
Definition no_hypothesis_csv : DataFrame :=
  frame ["sentence1_edited"; "gold_label_edited"]
    [ [("sentence1_edited", VStr "The boy did not see a bird.");
       ("gold_label_edited", VStr "neutral")] ].

Definition no_hypothesis_dir : FileSystem :=
  directory "train"
    [("train/no_negation.csv", Ok no_negation_csv);
     ("train/one_not_scoped.csv", Ok no_hypothesis_csv)].

(** The row [dog_row] with its hypothesis written as a sentence. *)
Definition dog_sentence_row : Series :=
  {| index := ["sentence1"; "sentence2"; "gold_label"; "category"];
     cell := row_of [("sentence1", VStr "There is a cat but not a single dog.");
                     ("sentence2", VStr "There is not a single dog.");
                     ("gold_label", VStr "entailment");
                     ("category", VStr "one_scoped")] |}.

(** A file of the category [one_scoped] whose premises are numbers, and
    the directory of it next to a file of another category, which lacks
    the column [sentence1]. *)
Definition numbered_csv : DataFrame :=
  frame ["sentence1"; "sentence2"; "gold_label"]
    [ [("sentence1", VInt 7);
       ("sentence2", VStr "There is a dog.");
       ("gold_label", VStr "neutral")];
      [("sentence1", VInt 9007199254740993);
       ("sentence2", VStr "There is a cat.");
       ("gold_label", VStr "entailment")] ].

Definition numbered_dir : FileSystem :=
  directory "train" [("train/one_scoped.csv", Ok numbered_csv)].

Definition numbered_dir_with_header_only : FileSystem :=
  directory "train"
    [("train/one_scoped.csv", Ok numbered_csv);
     ("train/one_not_scoped.csv", Ok header_only_csv)].

(** A directory in which the second file cannot be read. *)
Definition unreadable_dir : FileSystem :=
  directory "train"
    [("train/one_scoped.csv", Ok one_scoped_csv);
     ("train/no_negation.csv", Raise (ParserError "train/no_negation.csv"));
     ("train/one_not_scoped.csv", Raise (OSError "train/one_not_scoped.csv"))].

(** * Properties *)

(** ** Computations that may raise *)

Lemma bind_Ok {A B} (m : result A) (f : A -> result B) b :
  m ≫= f = Ok b <-> exists a, m = Ok a /\ f a = Ok b.
Proof.
  destruct m as [a|e]; simpl; split.
  - by exists a.
  - by intros (? & [= <-] & ?).
  - discriminate.
  - by intros (? & [=] & _).
Qed.

Section Result.
Context {A B : Type}.
Implicit Types (f : A -> result B) (l : list A) (bs : list B).

Lemma mapM_result_cons f a l :
  mapM_result f (a :: l) = f a ≫= fun b => mapM_result f l ≫= fun bs => Ok (b :: bs).
Proof. reflexivity. Qed.

Lemma mapM_result_Ok f l bs :
  mapM_result f l = Ok bs <-> Forall2 (fun a b => f a = Ok b) l bs.
Proof.
  revert bs. induction l as [|a l IH]; intros bs.
  - simpl. split; [intros [= <-]; constructor | by inversion 1].
  - rewrite mapM_result_cons, bind_Ok. split.
    + intros (b & Hb & H). apply bind_Ok in H as (bs' & Hbs & [= <-]).
      constructor; [done | by apply IH].
    + inversion 1 as [|? b ? bs' Hb Hbs]; subst. exists b. split; [done|].
      apply bind_Ok. exists bs'. split; [by apply IH | done].
Qed.

Lemma mapM_result_length f l bs : mapM_result f l = Ok bs -> length bs = length l.
Proof. rewrite mapM_result_Ok. intros H. symmetry. by eapply Forall2_length. Qed.

Lemma mapM_result_total f l :
  Forall (fun a => exists b, f a = Ok b) l -> exists bs, mapM_result f l = Ok bs.
Proof.
  induction 1 as [|a l [b Hb] _ [bs Hbs]]; simpl; [by eexists|].
  rewrite Hb; simpl. rewrite Hbs; simpl. by eexists.
Qed.
End Result.

(** ** Strings *)

Module StrFacts.
Import Str.

Lemma append_cons c s u : String c s +:+ u = String c (s +:+ u).
Proof. reflexivity. Qed.

Lemma append_nil s : EmptyString +:+ s = s.
Proof. reflexivity. Qed.








Lemma lower_char_idemp c : lower_char (lower_char c) = lower_char c.
Proof. by destruct c as [[] [] [] [] [] [] [] []]. Qed.

Lemma lower_char_letters :
  lower "ABCDEFGHIJKLMNOPQRSTUVWXYZ" = "abcdefghijklmnopqrstuvwxyz" /\
  lower "abcdefghijklmnopqrstuvwxyz" = "abcdefghijklmnopqrstuvwxyz".
Proof. by split. Qed.
End StrFacts.

(** ** Rows and [as_example] *)

Lemma getitem_in row k : k ∈ index row -> getitem row k = Ok (cell row k).
Proof. unfold getitem. intros. by rewrite bool_decide_eq_true_2. Qed.

Lemma getitem_notin row k : k ∉ index row -> getitem row k = Raise (KeyError k).
Proof. unfold getitem. intros. by rewrite bool_decide_eq_false_2. Qed.

Lemma eq_str_true v s : eq_str v s = true <-> v = VStr s.
Proof.
  destruct v as [s'| | |]; simpl; [|by split..].
  rewrite String.eqb_eq. split; [by intros ->|by intros [= ->]].
Qed.

(** The keys [as_example] builds with [suffix] are the columns the
    specification names. *)
Lemma column_names cat :
  "sentence1" +:+ suffix_of cat = premise_column cat /\
  "sentence2" +:+ suffix_of cat = hypothesis_column cat /\
  "gold_label" +:+ suffix_of cat = gold_label_column cat.
Proof.
  unfold suffix_of, premise_column, hypothesis_column, gold_label_column.
  by destruct (eq_str cat "one_scoped").
Qed.

(** Case analysis on whether [row] has the column [k], taken through the
    lookup [row[k]]. *)
Ltac by_column row k :=
  let H := fresh "Hcol" in
  destruct (decide (k ∈ index row)) as [H|H];
  [ rewrite ?(bool_decide_eq_true_2 _ H), ?(getitem_in _ _ H)
  | rewrite ?(bool_decide_eq_false_2 _ H), ?(getitem_notin _ _ H) ].

(** [as_example] by cases: the first lookup that fails decides the
    exception. *)
Lemma as_example_cases row :
  as_example row =
  let cat := cell row "category" in
  if bool_decide ("category" ∈ index row) then
    if bool_decide (hypothesis_column cat ∈ index row) then
      match hypothesis_field row with
      | VStr (String c t) =>
          if bool_decide (gold_label_column cat ∈ index row) then
            if bool_decide (premise_column cat ∈ index row) then
              Ok {| context := premise_field row;
                    question := question_of c t;
                    answer := if eq_str (gold_label_field row) "entailment"
                              then "Yes" else "No";
                    category := cat;
                    input_keys := Some ["context"; "question"] |}
            else Raise (KeyError (premise_column cat))
          else Raise (KeyError (gold_label_column cat))
      | VStr EmptyString => Raise IndexError
      | _ => Raise TypeError
      end
    else Raise (KeyError (hypothesis_column cat))
  else Raise (KeyError "category").
Proof.
  unfold as_example, hypothesis_field, premise_field, gold_label_field.
  destruct (column_names (cell row "category")) as (H1 & H2 & H3).
  cbv zeta. by_column row "category"; [|done].
  cbn [mbind result_bind]. rewrite H1, H2, H3.
  by_column row (hypothesis_column (cell row "category")); [|done].
  cbn [mbind result_bind].
  destruct (cell row (hypothesis_column _)) as [[|c t]| | |]; try reflexivity.
  cbn [subscript0 slice1 Str.first Str.tail mbind result_bind].
  by_column row (gold_label_column (cell row "category")); [|done].
  cbn [mbind result_bind].
  by_column row (premise_column (cell row "category")); [|done].
  reflexivity.
Qed.

(** The rows on which [as_example] returns, and what it returns. *)
Lemma as_example_Ok row e :
  as_example row = Ok e <->
  "category" ∈ index row /\
  Forall (fun k => k ∈ index row) (source_columns (cell row "category")) /\
  exists c t,
    hypothesis_field row = VStr (String c t) /\
    e = {| context := premise_field row;
           question := question_of c t;
           answer := if eq_str (gold_label_field row) "entailment"
                     then "Yes" else "No";
           category := cell row "category";
           input_keys := Some ["context"; "question"] |}.
Proof.
  rewrite as_example_cases. cbv zeta. unfold source_columns.
  rewrite !Forall_cons, Forall_nil.
  by_column row "category"; [|split; [discriminate|tauto]].
  by_column row (hypothesis_column (cell row "category"));
    [|split; [discriminate|tauto]].
  destruct (hypothesis_field row) as [[|c t]| | |] eqn:E;
    try (split; [discriminate|by intros (_ & _ & ? & ? & [=] & _)]).
  by_column row (gold_label_column (cell row "category"));
    [|split; [discriminate|tauto]].
  by_column row (premise_column (cell row "category"));
    [|split; [discriminate|tauto]].
  split.
  - intros [= <-]. repeat (split; [done|]). by exists c, t.
  - by intros (_ & _ & ? & ? & [= <- <-] & ->).
Qed.

Lemma as_example_loadable row : (exists e, as_example row = Ok e) <-> loadable row.
Proof.
  unfold loadable. split.
  - intros (e & (? & ? & c & t & ? & _)%as_example_Ok).
    repeat (split; [done|]). by exists c, t.
  - intros (? & ? & c & t & ?). eexists. apply as_example_Ok.
    repeat (split; [done|]). exists c, t. by split.
Qed.

Lemma as_example_more_columns cols cols' c e :
  cols ⊆ cols' ->
  as_example {| index := cols; cell := c |} = Ok e ->
  as_example {| index := cols'; cell := c |} = Ok e.
Proof.
  intros Hsub. rewrite !as_example_Ok. cbn [index cell].
  intros (? & HF & H). split; [by apply Hsub|]. split; [|done].
  eapply Forall_impl; [exact HF|]. intros k. apply Hsub.
Qed.

(** ** Frames *)

Lemma elem_of_add_labels acc l k :
  k ∈ foldl add_label acc l <-> k ∈ acc \/ k ∈ l.
Proof.
  revert acc. induction l as [|x l IH]; intros acc; simpl.
  - rewrite elem_of_nil. tauto.
  - rewrite IH, elem_of_cons. unfold add_label. case_bool_decide as Hx.
    + split; [tauto|]. intros [?|[->|?]]; auto.
    + rewrite elem_of_app, list_elem_of_singleton. tauto.
Qed.

Lemma elem_of_union_from acc dfs k :
  k ∈ foldl (fun acc df => foldl add_label acc (columns df)) acc dfs <->
  k ∈ acc \/ exists df, df ∈ dfs /\ k ∈ columns df.
Proof.
  revert acc. induction dfs as [|df dfs IH]; intros acc; simpl.
  - split; [tauto|]. intros [?|(? & []%elem_of_nil & _)]. done.
  - rewrite IH, elem_of_add_labels. split.
    + intros [[?|?]|(df' & ? & ?)]; [tauto| |].
      * right. exists df. split; [left|done].
      * right. exists df'. split; [by right|done].
    + intros [?|(df' & [->|?]%elem_of_cons & ?)]; [tauto|tauto|].
      right. by exists df'.
Qed.

Lemma elem_of_union_columns dfs k :
  k ∈ union_columns dfs <-> exists df, df ∈ dfs /\ k ∈ columns df.
Proof.
  unfold union_columns. rewrite elem_of_union_from, elem_of_nil. tauto.
Qed.

Lemma pd_concat_Ok dfs data_df :
  pd_concat dfs = Ok data_df <->
  dfs <> [] /\
  data_df = {| columns := union_columns dfs;
               rows := df ← dfs; reindex dfs df <$> rows df |}.
Proof.
  destruct dfs as [|df dfs]; simpl; split.
  - discriminate.
  - by intros [? _].
  - by intros [= <-].
  - by intros [_ ->].
Qed.

Lemma length_data_rows dfs : length (data_rows dfs) = total_rows dfs.
Proof.
  unfold data_rows, total_rows. rewrite length_fmap.
  enough (forall all,
            length (df ← dfs; reindex all df <$> rows df)
            = sum_list_with (fun df => length (rows df)) dfs) by done.
  intros all. induction dfs as [|df dfs IH]; [done|].
  rewrite bind_cons, length_app, length_fmap, IH. done.
Qed.

Lemma elem_of_data_rows dfs row :
  row ∈ data_rows dfs <->
  exists df r, df ∈ dfs /\ r ∈ rows df /\
    row = {| index := union_columns dfs; cell := reindex dfs df r |}.
Proof.
  unfold data_rows. rewrite list_elem_of_fmap. split.
  - intros (c & -> & (df & (r & -> & ?)%list_elem_of_fmap & ?)%list_elem_of_bind).
    by exists df, r.
  - intros (df & r & ? & ? & ->). eexists; split; [done|].
    apply list_elem_of_bind. exists df. split; [|done].
    apply list_elem_of_fmap. by exists r.
Qed.

(** [load_scone] returns exactly when the files can be read, there is at
    least one, and [as_example] returns on every row. *)
Lemma load_scone_Ok fs dirname exs :
  load_scone fs dirname = Ok exs <->
  exists dfs, read_frames fs dirname = Ok dfs /\ dfs <> [] /\
    Forall2 (fun row e => as_example row = Ok e) (data_rows dfs) exs.
Proof.
  unfold load_scone. rewrite bind_Ok. split.
  - intros (dfs & Hdfs & H). apply bind_Ok in H as (data_df & Hc & H).
    apply pd_concat_Ok in Hc as [Hne ->].
    exists dfs. repeat split; [done..|]. by apply mapM_result_Ok.
  - intros (dfs & Hdfs & Hne & H). exists dfs. split; [done|].
    apply bind_Ok. eexists. split; [by apply pd_concat_Ok|].
    by apply mapM_result_Ok.
Qed.

Lemma read_frame_Ok fs filename df' :
  read_frame fs filename = Ok df' <->
  exists df, read_csv fs filename = Ok df /\
    df' = setitem df "category" (VStr (category_of filename)).
Proof.
  unfold read_frame. rewrite bind_Ok. split; intros (df & ? & H); exists df.
  - split; [done|]. by injection H.
  - split; [done|]. by rewrite H.
Qed.

Lemma length_rows_setitem df k v : length (rows (setitem df k v)) = length (rows df).
Proof. simpl. by rewrite length_fmap. Qed.

(** The category of a file is its name without directories and without
    [.csv], wherever [.csv] stands in the name. *)
Example category_of_path :
  category_of "ScoNe/scone_nli/train/one_scoped.csv" = "one_scoped" /\
  category_of "train/one.csv_scoped.csv" = "one_scoped".
Proof. by split. Qed.

Lemma astype_str d s : astype d (VStr s) = VStr s.
Proof. by destruct d. Qed.

Lemma astype_nan d : astype d VNaN = VNaN.
Proof. by destruct d. Qed.

Lemma astype_eq_str d v s : astype d v = VStr s <-> v = VStr s.
Proof. by destruct d, v. Qed.

Lemma eq_str_astype d v s : eq_str (astype d v) s = eq_str v s.
Proof. by destruct d, v. Qed.

Lemma astype_upcast d v : upcast_of v (astype d v).
Proof. destruct d, v; try (by left). right. by eexists. Qed.

Lemma elem_of_columns_setitem df key v k :
  k ∈ columns (setitem df key v) <-> k ∈ columns df \/ k = key.
Proof.
  simpl. case_bool_decide as Hk.
  - split; [tauto|]. by intros [?| ->].
  - by rewrite elem_of_app, list_elem_of_singleton.
Qed.

Lemma read_frames_total_rows fs l dfs :
  mapM_result (read_frame fs) l = Ok dfs ->
  total_rows dfs =
  sum_list_with (fun filename => match read_csv fs filename with
                                 | Ok df => length (rows df)
                                 | Raise _ => 0
                                 end) l.
Proof.
  rewrite mapM_result_Ok. induction 1 as [|filename df' l dfs H _ IH]; [done|].
  apply read_frame_Ok in H as (df & Hdf & ->).
  unfold total_rows in *. simpl. rewrite Hdf, length_fmap. by f_equal.
Qed.

(** No row is dropped: a list that [load_scone] returns has one element
    for every data row of the directory. *)
Lemma load_scone_length fs dirname exs :
  load_scone fs dirname = Ok exs -> length exs = count_rows fs dirname.
Proof.
  intros (dfs & Hdfs & _ & H)%load_scone_Ok.
  apply Forall2_length in H. rewrite <-H, length_data_rows.
  by apply read_frames_total_rows.
Qed.

Lemma source_columns_not_category cat : "category" ∉ source_columns cat.
Proof.
  unfold source_columns, premise_column, hypothesis_column, gold_label_column.
  destruct (eq_str cat "one_scoped"); by intros ?%(bool_decide_pack _).
Qed.

(** A valid row of a file is loadable once it stands in the concatenated
    frame, whatever the other files are. *)
Lemma valid_row_loadable dfs filename df r :
  setitem df "category" (VStr (category_of filename)) ∈ dfs ->
  valid_row filename df r ->
  loadable
    {| index := union_columns dfs;
       cell := reindex dfs (setitem df "category" (VStr (category_of filename)))
                 (fun k => if String.eqb k "category"
                           then VStr (category_of filename) else r k) |}.
Proof.
  set (cat := VStr (category_of filename)). set (df' := setitem _ _ _).
  set (r' := fun k => _). intros Hin [Hcols (c & t & Hh)].
  assert (Hcat : reindex dfs df' r' "category" = cat).
  { unfold reindex. rewrite bool_decide_eq_true_2; [apply astype_str|].
    apply elem_of_columns_setitem. by right. }
  assert (Hre : forall k, k ∈ source_columns cat ->
            k ∈ union_columns dfs /\
            reindex dfs df' r' k = astype (result_dtype dfs k) (r k)).
  { intros k Hk. assert (k ∈ columns df) as Hkc.
    { by eapply Forall_forall in Hcols. }
    assert (k ∈ columns df') by (apply elem_of_columns_setitem; by left).
    split; [apply elem_of_union_columns; by exists df'|].
    unfold reindex. rewrite bool_decide_eq_true_2 by done. unfold r'.
    destruct (String.eqb_spec k "category") as [->|]; [|done].
    by apply source_columns_not_category in Hk. }
  unfold loadable, hypothesis_field. cbn [index cell]. rewrite Hcat.
  split; [|split].
  - apply elem_of_union_columns. exists df'. split; [done|].
    apply elem_of_columns_setitem. by right.
  - apply Forall_forall. intros k Hk. by apply Hre.
  - exists c, t.
    destruct (Hre (hypothesis_column cat)) as [_ ->];
      [unfold source_columns; right; left|].
    unfold cat. rewrite Hh. apply astype_str.
Qed.

Lemma Forall2_elem_of_r' {A B} (P : A -> B -> Prop) l k y :
  Forall2 P l k -> y ∈ k -> exists x, x ∈ l /\ P x y.
Proof.
  induction 1 as [|x y' l k ? _ IH]; [by intros ?%elem_of_nil|].
  intros [->|Hy]%elem_of_cons.
  - exists x. split; [left|done].
  - destruct (IH Hy) as (x' & ? & ?). exists x'. split; [by right|done].
Qed.

Lemma Forall2_impl_elem_of {A B} (P Q : A -> B -> Prop) l k :
  Forall2 P l k -> (forall x y, x ∈ l -> P x y -> Q x y) -> Forall2 Q l k.
Proof.
  induction 1 as [|x y l k ? _ IH]; intros HPQ; constructor.
  - apply HPQ; [left|done].
  - apply IH. intros x' y' ? ?. apply HPQ; [by right|done].
Qed.

Lemma sum_list_with_ext_elem_of {A} (f g : A -> nat) l :
  (forall x, x ∈ l -> f x = g x) -> sum_list_with f l = sum_list_with g l.
Proof.
  induction l as [|x l IH]; intros H; simpl; [done|].
  rewrite H by left. f_equal. apply IH. intros y ?. apply H. by right.
Qed.


Lemma source_columns_distinct cat : NoDup ("category" :: source_columns cat).
Proof.
  unfold source_columns, premise_column, hypothesis_column, gold_label_column.
  destruct (eq_str cat "one_scoped"); by apply (bool_decide_unpack _).
Qed.

Lemma elem_of_without_column k row k' :
  k' ∈ index (without_column k row) <-> k' ∈ index row /\ k' <> k.
Proof. unfold without_column. cbn [index]. rewrite list_elem_of_filter. tauto. Qed.

(** On a row that loads, the columns [as_example] reads are those of the
    category of the row. *)
Lemma reads_column_loadable row k :
  loadable row -> k <> "category" ->
  reads_column row k = bool_decide (k ∈ source_columns (cell row "category")).
Proof.
  intros (Hc & HF & c & t & Hh) Hk.
  pose proof (source_columns_distinct (cell row "category")) as Hnd.
  unfold source_columns in *.
  apply Forall_cons in HF as [Hp HF]. apply Forall_cons in HF as [Hhy HF].
  apply Forall_cons in HF as [Hg _].
  apply NoDup_cons in Hnd as [_ Hnd]. apply NoDup_cons in Hnd as [Hph Hnd].
  apply NoDup_cons in Hnd as [Hhg _].
  rewrite !not_elem_of_cons in Hph. rewrite !not_elem_of_cons in Hhg.
  destruct Hph as (Hph & Hpg & _). destruct Hhg as (Hhg & _).
  unfold reads_column. rewrite as_example_cases. cbv zeta.
  unfold hypothesis_field, premise_field, gold_label_field in *.
  cbn [cell without_column]. fold (without_column k row).
  rewrite (bool_decide_eq_true_2 ("category" ∈ _)) by (by apply elem_of_without_column).
  destruct (decide (k = hypothesis_column (cell row "category"))) as [->|Hkh].
  { rewrite (bool_decide_eq_false_2 (_ ∈ index _))
      by (rewrite elem_of_without_column; tauto).
    rewrite String.eqb_refl. symmetry. apply bool_decide_eq_true_2. right. left. }
  rewrite (bool_decide_eq_true_2 (hypothesis_column _ ∈ _))
    by (by apply elem_of_without_column).
  rewrite Hh.
  destruct (decide (k = gold_label_column (cell row "category"))) as [->|Hkg].
  { rewrite (bool_decide_eq_false_2 (_ ∈ index _))
      by (rewrite elem_of_without_column; tauto).
    rewrite String.eqb_refl. symmetry. apply bool_decide_eq_true_2. right. right. left. }
  rewrite (bool_decide_eq_true_2 (gold_label_column _ ∈ _))
    by (by apply elem_of_without_column).
  destruct (decide (k = premise_column (cell row "category"))) as [->|Hkp].
  { rewrite (bool_decide_eq_false_2 (_ ∈ index _))
      by (rewrite elem_of_without_column; tauto).
    rewrite String.eqb_refl. symmetry. apply bool_decide_eq_true_2. left. }
  rewrite (bool_decide_eq_true_2 (premise_column _ ∈ _))
    by (by apply elem_of_without_column).
  symmetry. apply bool_decide_eq_false_2. rewrite !not_elem_of_cons.
  repeat split; [done..|]. apply not_elem_of_nil.
Qed.


(** ** The split *)

Section SplitFacts.
Context (G : Generator) {A : Type}.
Implicit Types (x : list A) (g : gen_state G).

Lemma swap_Ok x i j :
  i < length x -> j < length x ->
  exists x', swap x i j = Ok x' /\ x' ≡ₚ x.
Proof.
  intros [xi Hi]%lookup_lt_is_Some_2 [xj Hj]%lookup_lt_is_Some_2.
  unfold swap. rewrite Hi, Hj. eexists. split; [done|].
  by apply Permutation_insert_swap.
Qed.

(** With draws below their bound the loop of [shuffle] never leaves the
    list, and it returns a permutation of it. *)
Lemma shuffle_from_Ok i x g :
  i < length x ->
  exists x' g', shuffle_from G i x g = (Ok x', g') /\ x' ≡ₚ x.
Proof.
  revert x g. induction i as [|i IH]; intros x g Hi.
  - by exists x, g.
  - cbn [shuffle_from].
    pose proof (randbelow_lt G (S i + 1) g) as Hj.
    destruct (randbelow G (S i + 1) g) as [j g1]. cbn [fst] in Hj.
    destruct (swap_Ok x (S i) j) as (x1 & -> & Hx1); [lia..|].
    destruct (IH x1 g1) as (x' & g' & -> & Hx').
    { apply Permutation_length in Hx1. lia. }
    exists x', g'. split; [done|]. by etrans.
Qed.

Lemma shuffle_Ok x g : exists x' g', shuffle G x g = (Ok x', g') /\ x' ≡ₚ x.
Proof.
  unfold shuffle. destruct x as [|a x]; [by exists [], g|].
  apply shuffle_from_Ok. simpl. lia.
Qed.

(** The split of a list of at least 250 elements. *)
Lemma train_dev_Ok all_train g :
  250 <= length all_train ->
  exists (shuffled : list A) g',
    shuffled ≡ₚ all_train /\
    train_dev G all_train g
    = (Ok (take 200 shuffled, take 50 (drop 200 shuffled)), g').
Proof.
  intros Hlen. unfold train_dev.
  destruct (shuffle_Ok all_train (seed G 1)) as (x' & g' & -> & Hx').
  by exists x', g'.
Qed.
End SplitFacts.

(** ** The rows of the files *)

Lemma upcast_same_cell v v1 v2 : upcast_of v v1 -> upcast_of v v2 -> same_cell v1 v2.
Proof.
  intros [->|(z & -> & ->)] [->|(z' & Hz & ->)].
  - left. by left.
  - left. right. by exists z'.
  - right. right. by exists z.
  - injection Hz as <-. left. by left.
Qed.

Lemma read_frames_ext fs fs' l dfs :
  (forall p, p ∈ l -> read_csv fs' p = read_csv fs p) ->
  Forall2 (fun a b => read_frame fs a = Ok b) l dfs ->
  Forall2 (fun a b => read_frame fs' a = Ok b) l dfs.
Proof.
  intros Hsame H. eapply Forall2_impl_elem_of; [exact H|].
  intros p b Hp Hb. unfold read_frame in *. by rewrite Hsame.
Qed.

Lemma rows_under_app cols all dfs1 dfs2 :
  rows_under cols all (dfs1 ++ dfs2)
  = rows_under cols all dfs1 ++ rows_under cols all dfs2.
Proof. unfold rows_under. by rewrite bind_app, fmap_app. Qed.

Lemma rows_under_source fs l dfs all cols :
  Forall2 (fun filename df => read_frame fs filename = Ok df) l dfs ->
  rows_under cols all dfs
  = row_in all cols <$> (filename ← l;
                         match read_csv fs filename with
                         | Ok df => (fun r => (filename, df, r)) <$> rows df
                         | Raise _ => []
                         end).
Proof.
  induction 1 as [|filename df' l dfs H _ IH]; [done|].
  apply read_frame_Ok in H as (df & Hdf & ->).
  change (?a :: dfs) with ([a] ++ dfs). rewrite rows_under_app, IH.
  rewrite bind_cons, fmap_app, Hdf. f_equal.
  unfold rows_under. rewrite bind_singleton. cbn [rows setitem].
  rewrite <-!list_fmap_compose. done.
Qed.

Lemma read_frames_source fs dirname dfs :
  read_frames fs dirname = Ok dfs ->
  data_rows dfs = row_in dfs (union_columns dfs) <$> source_rows fs dirname.
Proof.
  intros H%mapM_result_Ok.
  by apply (rows_under_source _ _ _ dfs (union_columns dfs)) in H.
Qed.

Lemma row_in_category all cols src :
  cell (row_in all cols src) "category" = VStr (category_of src.1.1).
Proof.
  destruct src as [[filename df] r]. cbn [row_in cell fst].
  unfold reindex. rewrite bool_decide_eq_true_2.
  - cbn. apply astype_str.
  - apply elem_of_columns_setitem. by right.
Qed.

Lemma row_in_cell all cols src k :
  k <> "category" ->
  cell (row_in all cols src) k = astype (result_dtype all k) (own_cell src.1.2 src.2 k).
Proof.
  destruct src as [[filename df] r]. cbn [row_in cell fst snd]. intros Hk.
  unfold reindex, own_cell.
  destruct (String.eqb_spec k "category") as [->|_]; [done|].
  destruct (decide (k ∈ columns df)) as [Hin|Hin].
  - rewrite !bool_decide_eq_true_2; [done..|].
    apply elem_of_columns_setitem. by left.
  - rewrite !bool_decide_eq_false_2; [by rewrite astype_nan|done|].
    rewrite elem_of_columns_setitem. tauto.
Qed.

Lemma source_column_not_category cat k : k ∈ source_columns cat -> k <> "category".
Proof. intros Hk ->. by apply source_columns_not_category in Hk. Qed.

(** The rows of the files on which [as_example] returns, and what it
    returns on them. *)
Lemma as_example_row_in all cols src e :
  as_example (row_in all cols src) = Ok e <->
  source_ok cols src /\ e = example_in all src.
Proof.
  rewrite as_example_Ok.
  unfold hypothesis_field, premise_field, gold_label_field.
  rewrite row_in_category.
  rewrite !row_in_cell
    by (eapply source_column_not_category; unfold source_columns;
        repeat ((by left) || right)).
  destruct src as [[filename df] r]. cbn [fst snd row_in index].
  unfold source_ok, example_in, example_of_source. cbn [question answer].
  rewrite eq_str_astype. split.
  - intros (Hc & HF & c & t & Hh & ->). apply astype_eq_str in Hh.
    split; [by eauto 10|]. by rewrite Hh.
  - intros ((Hc & HF & c & t & Hh) & ->). repeat (split; [done|]).
    exists c, t. split; [by apply astype_eq_str|]. by rewrite Hh.
Qed.

(** [load_scone] returns exactly when the files are read, there is at
    least one, and every data row has the columns of its category among
    those of the files and a hypothesis that is a non-empty [str]; it
    returns the Example of every data row. *)
Lemma load_scone_sources fs dirname exs :
  load_scone fs dirname = Ok exs <->
  exists dfs,
    read_frames fs dirname = Ok dfs /\ dfs <> [] /\
    Forall (source_ok (union_columns dfs)) (source_rows fs dirname) /\
    exs = example_in dfs <$> source_rows fs dirname.
Proof.
  rewrite load_scone_Ok. split.
  - intros (dfs & Hdfs & Hne & H). exists dfs. repeat (split; [done|]).
    rewrite (read_frames_source _ _ _ Hdfs) in H. apply Forall2_fmap_l in H.
    split.
    + apply Forall_forall. intros src [i Hi]%list_elem_of_lookup.
      destruct (Forall2_lookup_l _ _ _ _ _ H Hi) as (e & _ & He).
      by apply as_example_row_in in He as [? _].
    + symmetry. apply list_eq_Forall2, Forall2_fmap_l.
      eapply Forall2_impl; [exact H|]. intros src e He. cbn in He.
      by apply as_example_row_in in He as [_ ->].
  - intros (dfs & Hdfs & Hne & Hok & ->). exists dfs. repeat (split; [done|]).
    rewrite (read_frames_source _ _ _ Hdfs). apply Forall2_fmap.
    apply Forall_Forall2_diag. eapply Forall_impl; [exact Hok|].
    intros src Hsrc. by apply as_example_row_in.
Qed.

Lemma source_ok_more_columns cols cols' src :
  cols ⊆ cols' -> source_ok cols src -> source_ok cols' src.
Proof.
  intros Hsub. destruct src as [[filename df] r].
  intros (Hc & HF & H). split; [by apply Hsub|]. split; [|done].
  eapply Forall_impl; [exact HF|]. intros k. apply Hsub.
Qed.

Lemma example_in_same dfs dfs' src : same_example (example_in dfs src) (example_in dfs' src).
Proof.
  destruct src as [[filename df] r]. unfold same_example, example_in.
  cbn [context question answer category input_keys].
  split; [|done]. eapply upcast_same_cell; apply astype_upcast.
Qed.

Lemma example_in_loaded_from dfs src : loaded_from src (example_in dfs src).
Proof.
  destruct src as [[filename df] r]. unfold loaded_from, example_in, example_of_source.
  cbn [context question answer category input_keys].
  split; [|done]. apply astype_upcast.
Qed.

Lemma union_columns_app_l dfs1 dfs2 : union_columns dfs1 ⊆ union_columns (dfs1 ++ dfs2).
Proof.
  intros k. rewrite !elem_of_union_columns. intros (df & ? & ?). exists df.
  split; [|done]. apply elem_of_app. by left.
Qed.

Lemma union_columns_app_r dfs1 dfs2 : union_columns dfs2 ⊆ union_columns (dfs1 ++ dfs2).
Proof.
  intros k. rewrite !elem_of_union_columns. intros (df & ? & ?). exists df.
  split; [|done]. apply elem_of_app. by right.
Qed.

Lemma bind_ext_elem_of {A B} (f g : A -> list B) l :
  (forall x, x ∈ l -> f x = g x) -> l ≫= f = l ≫= g.
Proof. intros H. apply Forall_bind_ext, Forall_forall, H. Qed.

(** * The claims *)

(** ** The loader *)

Lemma as_example_answer row e :
  as_example row = Ok e ->
  (answer e = "Yes" <-> gold_label_field row = VStr "entailment") /\
  (gold_label_field row <> VStr "entailment" -> answer e = "No").
Proof.
  intros (_ & _ & c & t & _ & ->)%as_example_Ok. cbn [answer].
  rewrite <-eq_str_true. by destruct (eq_str _ "entailment").
Qed.

(** C1. For every row of the files [load_scone] has read, the Example
    built from the row has the answer "Yes" if and only if the gold label
    of the row ([gold_label], or [gold_label_edited] outside the category
    [one_scoped]) is "entailment"; with any other gold label the answer
    is "No". *)
Theorem C1_answer_yes_iff_entailment fs dirname exs :
  load_scone fs dirname = Ok exs ->
  exists dfs,
    read_frames fs dirname = Ok dfs /\
    Forall2 (fun row e =>
               as_example row = Ok e /\
               (answer e = "Yes" <-> gold_label_field row = VStr "entailment") /\
               (gold_label_field row <> VStr "entailment" -> answer e = "No"))
            (data_rows dfs) exs.
Proof.
  intros (dfs & Hdfs & _ & H)%load_scone_Ok. exists dfs. split; [done|].
  eapply Forall2_impl; [exact H|]. intros row e He. split; [done|].
  by apply as_example_answer.
Qed.

Lemma C1_witness :
  exists exs,
    load_scone train_dir "train" = Ok exs /\
    answer <$> exs = ["Yes"; "No"; "Yes"] /\
    exists dfs,
      read_frames train_dir "train" = Ok dfs /\
      Forall2 (fun row e =>
                 as_example row = Ok e /\
                 (answer e = "Yes" <-> gold_label_field row = VStr "entailment") /\
                 (gold_label_field row <> VStr "entailment" -> answer e = "No"))
              (data_rows dfs) exs.
Proof.
  eexists. split; [vm_compute; reflexivity|]. split; [reflexivity|].
  apply (C1_answer_yes_iff_entailment train_dir "train"). vm_compute. reflexivity.
Defined.

(** C4. In a directory with at least one csv file, all of them readable
    and each of their rows valid, [load_scone] returns, and what it
    returns has exactly one Example for every data row of the files. *)
Theorem C4_one_example_per_valid_row fs dirname :
  glob fs (dirname +:+ "/*.csv") <> [] ->
  (forall filename, filename ∈ glob fs (dirname +:+ "/*.csv") ->
     exists df, read_csv fs filename = Ok df /\
                Forall (valid_row filename df) (rows df)) ->
  exists exs, load_scone fs dirname = Ok exs /\ length exs = count_rows fs dirname.
Proof.
  intros Hne Hvalid.
  destruct (mapM_result_total (read_frame fs) (glob fs (dirname +:+ "/*.csv")))
    as [dfs Hdfs].
  { apply Forall_forall. intros filename Hf.
    destruct (Hvalid _ Hf) as (df & Hdf & _).
    eexists. apply read_frame_Ok. by exists df. }
  destruct (mapM_result_total as_example (data_rows dfs)) as [exs Hexs].
  { apply Forall_forall. intros row (df' & r' & Hdf' & Hr' & ->)%elem_of_data_rows.
    apply as_example_loadable.
    pose proof Hdfs as HF. apply mapM_result_Ok in HF.
    destruct (Forall2_elem_of_r' _ _ _ _ HF Hdf') as (filename & Hf & Hrd).
    apply read_frame_Ok in Hrd as (df & Hdf & ->).
    destruct (Hvalid _ Hf) as (df0 & Hdf0 & Hrows).
    rewrite Hdf in Hdf0. injection Hdf0 as <-.
    simpl in Hr'. apply list_elem_of_fmap in Hr' as (r & -> & Hr).
    apply valid_row_loadable; [done|].
    by eapply Forall_forall in Hrows. }
  assert (load_scone fs dirname = Ok exs) as Hload.
  { apply load_scone_Ok. exists dfs. repeat split; [done| |by apply mapM_result_Ok].
    intros ->. apply mapM_result_length in Hdfs.
    destruct (glob fs _); [done|discriminate]. }
  exists exs. split; [done|]. by apply load_scone_length.
Qed.

Lemma C4_witness :
  count_rows train_dir "train" = 3 /\
  exists exs, load_scone train_dir "train" = Ok exs /\
              length exs = count_rows train_dir "train".
Proof.
  split; [reflexivity|].
  apply (C4_one_example_per_valid_row train_dir "train"); [discriminate|].
  intros filename Hf. cbv in Hf.
  apply elem_of_cons in Hf as [->|Hf]; [|apply elem_of_cons in Hf as [->|Hf]].
  - exists one_scoped_csv. split; [reflexivity|].
    repeat constructor; by eexists _, _.
  - exists no_negation_csv. split; [reflexivity|].
    repeat constructor; by eexists _, _.
  - by apply elem_of_nil in Hf.
Defined.

(** With no csv file in the directory there is no data row, and
    [load_scone] raises instead of returning the empty list. *)
Lemma C4_counterexample :
  load_scone empty_dir "train" = Raise ValueError /\
  ~ ((forall filename, filename ∈ glob empty_dir ("train" +:+ "/*.csv") ->
        exists df, read_csv empty_dir filename = Ok df /\
                   Forall (valid_row filename df) (rows df)) ->
     exists exs, load_scone empty_dir "train" = Ok exs /\
                 length exs = count_rows empty_dir "train").
Proof.
  split; [reflexivity|]. intros H. destruct H as (exs & Hexs & _).
  - intros filename Hf. cbv in Hf. by apply elem_of_nil in Hf.
  - discriminate Hexs.
Qed.

(** C5. A file with a header and no data row takes part in a load without
    making it fail and without adding an Example: a directory that holds
    only such a file loads as the empty list; added to a directory that
    loads, it leaves the load a success with the same Examples, but for
    an int premise that stands as a float on one side; and whatever a
    directory with it loads has one Example for every row of the other
    files. *)
Theorem C5_header_only_file fs fs' dirname path df before after :
  glob fs (dirname +:+ "/*.csv") = before ++ after ->
  glob fs' (dirname +:+ "/*.csv") = before ++ path :: after ->
  (forall p, p ∈ before ++ after -> read_csv fs' p = read_csv fs p) ->
  read_csv fs' path = Ok df ->
  rows df = [] ->
  (before ++ after = [] -> load_scone fs' dirname = Ok []) /\
  (forall exs, load_scone fs dirname = Ok exs ->
     exists exs', load_scone fs' dirname = Ok exs' /\ Forall2 same_example exs exs') /\
  (forall exs, load_scone fs' dirname = Ok exs -> length exs = count_rows fs dirname).
Proof.
  intros Hg Hg' Hsame Hdf Hrows.
  set (df' := setitem df "category" (VStr (category_of path))).
  assert (Hdf' : read_frame fs' path = Ok df').
  { apply read_frame_Ok. by exists df. }
  assert (Hrows' : rows df' = []) by (simpl; by rewrite Hrows).
  split; [|split].
  - intros [-> ->]%app_eq_nil. apply load_scone_Ok. exists [df'].
    split; [|split; [done|]].
    + unfold read_frames. rewrite Hg'. simpl. by rewrite Hdf'.
    + unfold data_rows. rewrite bind_singleton, Hrows'. constructor.
  - intros exs (dfs & Hdfs & Hne & Hok & ->)%load_scone_sources.
    unfold read_frames in Hdfs. rewrite Hg in Hdfs. apply mapM_result_Ok in Hdfs.
    apply (read_frames_ext fs fs') in Hdfs; [|done].
    apply Forall2_app_inv_l in Hdfs as (dfs1 & dfs2 & H1 & H2 & ->).
    assert (Hsrc : source_rows fs' dirname = source_rows fs dirname).
    { unfold source_rows. rewrite Hg, Hg', !bind_app, bind_cons, Hdf, Hrows.
      rewrite fmap_nil, app_nil_l, <-!bind_app. apply bind_ext_elem_of.
      intros p Hp. by rewrite Hsame. }
    exists (example_in (dfs1 ++ df' :: dfs2) <$> source_rows fs dirname). split.
    + apply load_scone_sources. exists (dfs1 ++ df' :: dfs2).
      rewrite Hsrc. split; [|split; [by destruct dfs1|split; [|done]]].
      * unfold read_frames. rewrite Hg'. apply mapM_result_Ok.
        apply Forall2_app; [done|]. by constructor.
      * eapply Forall_impl; [exact Hok|]. intros src.
        apply source_ok_more_columns. intros k.
        rewrite !elem_of_union_columns. intros (d & Hd & ?). exists d.
        split; [|done]. rewrite elem_of_app in Hd.
        rewrite elem_of_app, elem_of_cons. tauto.
    + apply Forall2_fmap, Forall_Forall2_diag, Forall_forall.
      intros src _. apply example_in_same.
  - intros exs ->%load_scone_length. unfold count_rows. rewrite Hg, Hg'.
    rewrite !sum_list_with_app. simpl. rewrite Hdf, Hrows. simpl.
    rewrite <-sum_list_with_app. rewrite <-sum_list_with_app.
    apply sum_list_with_ext_elem_of. intros p Hp. by rewrite Hsame.
Qed.

Lemma C5_witness :
  load_scone numbered_dir "train"
  = Ok [ {| context := VInt 7;
            question := "Can we logically conclude for sure that there is a dog?";
            answer := "No"; category := VStr "one_scoped";
            input_keys := Some ["context"; "question"] |};
         {| context := VInt 9007199254740993;
            question := "Can we logically conclude for sure that there is a cat?";
            answer := "Yes"; category := VStr "one_scoped";
            input_keys := Some ["context"; "question"] |} ] /\
  (exists exs', load_scone numbered_dir_with_header_only "train" = Ok exs' /\
                context <$> exs' = [VFloat (float_of_int 7);
                                    VFloat (float_of_int 9007199254740992)]) /\
  ([ "train/one_scoped.csv" ] ++ [] = [] ->
   load_scone numbered_dir_with_header_only "train" = Ok []) /\
  (forall exs, load_scone numbered_dir "train" = Ok exs ->
     exists exs', load_scone numbered_dir_with_header_only "train" = Ok exs' /\
                  Forall2 same_example exs exs') /\
  (forall exs, load_scone numbered_dir_with_header_only "train" = Ok exs ->
               length exs = count_rows numbered_dir "train").
Proof.
  split; [vm_compute; reflexivity|].
  split; [eexists; split; vm_compute; reflexivity|].
  apply (C5_header_only_file numbered_dir numbered_dir_with_header_only "train"
           "train/one_not_scoped.csv" header_only_csv ["train/one_scoped.csv"] []);
    [reflexivity|reflexivity| |reflexivity|reflexivity].
  intros p Hp. apply list_elem_of_singleton in Hp as ->. reflexivity.
Defined.

(** C6. [load_scone] raises the exception of the first file that cannot
    be read; with the files read it raises when there is none, or when a
    row of the concatenated frame lacks one of the three columns of its
    category or has a hypothesis that is not a non-empty [str]; in every
    other case it returns, with one Example for every data row. So it
    never returns a list from which a row is missing. *)
Theorem C6_raises_or_loads_every_row fs dirname :
  (forall e, read_frames fs dirname = Raise e -> load_scone fs dirname = Raise e) /\
  (forall dfs, read_frames fs dirname = Ok dfs ->
     dfs = [] \/ ~ Forall loadable (data_rows dfs) ->
     exists e, load_scone fs dirname = Raise e) /\
  (forall dfs, read_frames fs dirname = Ok dfs ->
     dfs <> [] -> Forall loadable (data_rows dfs) ->
     exists exs, load_scone fs dirname = Ok exs /\
                 length exs = count_rows fs dirname).
Proof.
  split; [|split].
  - intros e He. unfold load_scone. by rewrite He.
  - intros dfs Hdfs Hbad.
    destruct (load_scone fs dirname) as [exs|e] eqn:Hload; [|by exists e].
    apply load_scone_Ok in Hload as (dfs' & Hdfs' & Hne & H).
    rewrite Hdfs in Hdfs'. injection Hdfs' as <-.
    destruct Hbad as [->|Hbad]; [done|]. destruct Hbad.
    apply Forall_forall. intros row Hrow. apply as_example_loadable.
    apply list_elem_of_lookup in Hrow as [i Hi].
    destruct (Forall2_lookup_l _ _ _ _ _ H Hi) as (ex & _ & Hex). by exists ex.
  - intros dfs Hdfs Hne H.
    destruct (mapM_result_total as_example (data_rows dfs)) as [exs Hexs].
    { eapply Forall_impl; [exact H|]. intros row. apply as_example_loadable. }
    assert (load_scone fs dirname = Ok exs) as Hload.
    { apply load_scone_Ok. exists dfs. repeat (split; [done|]).
      by apply mapM_result_Ok. }
    exists exs. split; [done|]. by apply load_scone_length.
Qed.

(** The file [one_not_scoped.csv] lacks the column [gold_label_edited],
    which [no_negation.csv] has: [load_scone] returns, and the row of the
    file gets the answer "No". *)
Lemma C6_counterexample :
  (exists exs, load_scone unlabelled_dir "train" = Ok exs /\
               answer <$> exs = ["Yes"; "No"]) /\
  ~ ((exists filename df,
        filename ∈ glob unlabelled_dir ("train" +:+ "/*.csv") /\
        read_csv unlabelled_dir filename = Ok df /\
        ~ Forall (fun k => k ∈ columns df)
                 (source_columns (VStr (category_of filename)))) ->
     exists e, load_scone unlabelled_dir "train" = Raise e).
Proof.
  split; [eexists; split; [vm_compute|]; reflexivity|].
  intros H. destruct H as [e He]; [|discriminate He].
  exists "train/one_not_scoped.csv", unlabelled_csv.
  split; [by right; left|]. split; [reflexivity|].
  intros HF. apply (bool_decide_pack _) in HF. by vm_compute in HF.
Qed.

(** C2. A row of category [one_scoped] is read from the columns
    [sentence1], [sentence2] and [gold_label], a row of any other
    category from the columns [sentence1_edited], [sentence2_edited] and
    [gold_label_edited]. The Example depends on no other column than
    these and [category], and the suffix [_edited] applies to all three
    source fields. *)
Theorem C2_columns_by_category row e :
  as_example row = Ok e ->
  Forall (fun k => k ∈ index row) (source_columns (cell row "category")) /\
  context e = premise_field row /\
  (exists c t, hypothesis_field row = VStr (String c t) /\
               question e = question_of c t) /\
  answer e = (if eq_str (gold_label_field row) "entailment" then "Yes" else "No") /\
  (forall row',
     (forall k, k ∈ "category" :: source_columns (cell row "category") ->
                (k ∈ index row' <-> k ∈ index row) /\ cell row' k = cell row k) ->
     as_example row' = Ok e) /\
  suffixed_fields row =
    (if eq_str (cell row "category") "one_scoped"
     then [] else ["sentence1"; "sentence2"; "gold_label"]).
Proof.
  intros He.
  assert (Hload : loadable row) by (apply as_example_loadable; by exists e).
  apply as_example_Ok in He as (Hc & HF & c & t & Hh & ->).
  cbn [context question answer].
  split; [done|]. split; [done|]. split; [by exists c, t|]. split; [done|]. split.
  - intros row' Hsame. apply as_example_Ok.
    assert (Hcat : cell row' "category" = cell row "category").
    { apply Hsame. left. }
    assert (Hcell : forall k, k ∈ source_columns (cell row "category") ->
                              cell row' k = cell row k).
    { intros k Hk. apply Hsame. by right. }
    unfold hypothesis_field, premise_field, gold_label_field in *. rewrite Hcat.
    split; [apply Hsame; [left|done]|]. split.
    + apply Forall_forall. intros k Hk. apply Hsame; [by right|].
      by eapply Forall_forall in HF.
    + exists c, t. unfold source_columns in Hcell.
      rewrite !Hcell by (repeat ((by left) || right)). by split.
  - unfold suffixed_fields. rewrite !filter_cons, filter_nil.
    rewrite !(reads_column_loadable _ _ Hload) by discriminate.
    unfold source_columns, premise_column, hypothesis_column, gold_label_column.
    by destruct (eq_str (cell row "category") "one_scoped").
Qed.

Lemma C2_witness :
  exists e,
    as_example both_kinds_row = Ok e /\
    context e = VStr "The girl owns a poodle." /\
    question e = "Can we logically conclude for sure that the girl owns a dog?" /\
    answer e = "Yes" /\
    suffixed_fields both_kinds_row = ["sentence1"; "sentence2"; "gold_label"].
Proof.
  eexists. split; [reflexivity|].
  destruct (C2_columns_by_category both_kinds_row _ eq_refl)
    as (_ & Hp & _ & Ha & _ & Hs).
  split; [exact Hp|]. split; [reflexivity|]. split; [exact Ha|]. exact Hs.
Defined.

(** On a row of the category [no_negation] the three source fields are
    read from the columns that end in [_edited], not two of them. *)
Lemma C2_counterexample :
  suffixed_fields both_kinds_row = ["sentence1"; "sentence2"; "gold_label"] /\
  ~ (length (suffixed_fields both_kinds_row) = 2).
Proof. split; [reflexivity|discriminate]. Qed.

(** C3. A row whose hypothesis ([sentence2] in [one_scoped]) is "there is
    not a single dog" and whose gold label is "entailment" gives the
    question "Can we logically conclude for sure that there is not a
    single dog?" and the answer "Yes". *)
Theorem C3_single_dog_scenario row :
  "category" ∈ index row ->
  Forall (fun k => k ∈ index row) (source_columns (cell row "category")) ->
  hypothesis_field row = VStr "there is not a single dog" ->
  gold_label_field row = VStr "entailment" ->
  exists e,
    as_example row = Ok e /\
    question e = "Can we logically conclude for sure that there is not a single dog?" /\
    answer e = "Yes".
Proof.
  intros Hc HF Hh Hg. eexists. split.
  - apply as_example_Ok. repeat (split; [done|]). eexists _, _. by split.
  - cbn [question answer]. by rewrite Hg.
Qed.

Lemma C3_witness :
  hypothesis_field dog_row = cell dog_row "sentence2" /\
  gold_label_field dog_row = cell dog_row "gold_label" /\
  exists e,
    as_example dog_row = Ok e /\
    question e = "Can we logically conclude for sure that there is not a single dog?" /\
    answer e = "Yes".
Proof.
  split; [reflexivity|]. split; [reflexivity|].
  apply (C3_single_dog_scenario dog_row);
    [by apply (bool_decide_unpack _)..|reflexivity|reflexivity].
Defined.



(** Periods at the beginning of the remainder go too, and capitals after
    the first character stay. *)
Example question_of_periods :
  question_of "A" "..b.C.." = "Can we logically conclude for sure that ab.C?".
Proof. reflexivity. Qed.

(** C10. On a row whose hypothesis is the empty string [as_example]
    raises [IndexError]: it builds no Example with an empty question. *)
Theorem C10_empty_hypothesis_raises row :
  "category" ∈ index row ->
  hypothesis_column (cell row "category") ∈ index row ->
  hypothesis_field row = VStr "" ->
  as_example row = Raise IndexError.
Proof.
  intros Hc Hk Hh. rewrite as_example_cases. cbv zeta.
  by rewrite !bool_decide_eq_true_2, Hh by done.
Qed.

Lemma C10_witness :
  hypothesis_field empty_hypothesis_row = VStr "" /\
  as_example empty_hypothesis_row = Raise IndexError.
Proof.
  split; [reflexivity|].
  apply (C10_empty_hypothesis_raises empty_hypothesis_row); [| |reflexivity];
    by apply (bool_decide_unpack _).
Defined.

(** ** The split *)

(** C7. For a list of 250 examples the cell that seeds the generator with
    1, shuffles and slices returns the same train and dev lists whatever
    state the generator was in before: train has 200 elements, dev has
    50, and together they are the 250 examples. *)
Theorem C7_split_reproducible (G : Generator) {A} (all_train : list A)
    (g1 g2 : gen_state G) :
  length all_train = 250 ->
  exists (train dev : list A) g',
    train_dev G all_train g1 = (Ok (train, dev), g') /\
    train_dev G all_train g2 = (Ok (train, dev), g') /\
    length train = 200 /\
    length dev = 50 /\
    train ++ dev ≡ₚ all_train.
Proof.
  intros Hlen.
  destruct (train_dev_Ok G all_train g1) as (x & g' & Hx & H1); [lia|].
  exists (take 200 x), (take 50 (drop 200 x)), g'.
  assert (length x = 250) as Hlx by (by rewrite Hx).
  split; [done|]. split; [exact H1|].
  rewrite !length_take, length_drop, Hlx.
  split; [done|]. split; [done|].
  rewrite <-Hx, (take_ge (drop 200 x)) by (rewrite length_drop; lia).
  by rewrite take_drop.
Qed.

Lemma C7_witness :
  exists train dev g',
    train_dev lcg (seq 0 250) 0 = (Ok (train, dev), g') /\
    train_dev lcg (seq 0 250) 2024 = (Ok (train, dev), g') /\
    length train = 200 /\
    length dev = 50 /\
    train ++ dev ≡ₚ seq 0 250.
Proof. apply (C7_split_reproducible lcg (seq 0 250) 0 2024). reflexivity. Defined.

(** ** The module *)

(** C8. [forward] is one call of the predictor with the two fields
    [context] and [question]: it returns what the call returns, be it a
    prediction or an exception, it leaves the world as the call leaves
    it, and it leaves the module as it was. A predictor that logs its
    calls has logged exactly this one call after [forward]. *)
Theorem C8_forward_is_one_call {World Prediction}
    (p : Predictor World Prediction) (context question : string)
    (w : World) (log : list kwargs) :
  let kw := [("context", context); ("question", question)] in
  forward {| generate_answer := p |} context question w
  = ((predict p kw w).1, {| generate_answer := p |}, (predict p kw w).2) /\
  forward {| generate_answer := logged p |} context question (w, log)
  = ((predict p kw w).1, {| generate_answer := logged p |},
     ((predict p kw w).2, log ++ [kw])).
Proof.
  cbv zeta. unfold forward, logged. cbn [generate_answer predict].
  by destruct (predict p _ w).
Qed.

(** * Further properties *)

(** ** The loader, file by file *)

(** X1. What [load_scone] returns is, row by row and in the order of
    [glob] and of the files, the Example of each data row: its category
    is the name of its file, whatever a column [category] of the file
    holds, its question and answer come from the columns of that category
    in its own file, and its context is the premise of the row in its own
    file, [nan] when the file lacks the column, or, for an int, the float
    it is cast to. *)
Theorem load_scone_row_by_row fs dirname exs :
  load_scone fs dirname = Ok exs ->
  Forall2 loaded_from (source_rows fs dirname) exs.
Proof.
  intros (dfs & _ & _ & _ & ->)%load_scone_sources.
  apply Forall2_fmap_r, Forall_Forall2_diag, Forall_forall.
  intros src _. apply example_in_loaded_from.
Qed.

Lemma load_scone_row_by_row_witness :
  exists exs,
    load_scone numbered_dir_with_header_only "train" = Ok exs /\
    context <$> exs = [VFloat (float_of_int 7); VFloat (float_of_int 9007199254740993)] /\
    context <$> (example_of_source <$> source_rows numbered_dir_with_header_only "train")
    = [VInt 7; VInt 9007199254740993] /\
    Forall2 loaded_from (source_rows numbered_dir_with_header_only "train") exs.
Proof.
  eexists. split; [vm_compute; reflexivity|]. split; [reflexivity|].
  split; [reflexivity|].
  apply (load_scone_row_by_row numbered_dir_with_header_only "train").
  vm_compute. reflexivity.
Defined.

(** X2. Two directories that load can be loaded as one: when the files
    of the first are listed before those of the second, the load returns
    the Examples of the first followed by those of the second, but for an
    int premise that stands as a float on one side. *)
Theorem load_scone_app fs1 fs2 fs dirname1 dirname2 dirname exs1 exs2 :
  glob fs (dirname +:+ "/*.csv")
  = glob fs1 (dirname1 +:+ "/*.csv") ++ glob fs2 (dirname2 +:+ "/*.csv") ->
  (forall p, p ∈ glob fs1 (dirname1 +:+ "/*.csv") -> read_csv fs p = read_csv fs1 p) ->
  (forall p, p ∈ glob fs2 (dirname2 +:+ "/*.csv") -> read_csv fs p = read_csv fs2 p) ->
  load_scone fs1 dirname1 = Ok exs1 ->
  load_scone fs2 dirname2 = Ok exs2 ->
  exists exs, load_scone fs dirname = Ok exs /\ Forall2 same_example (exs1 ++ exs2) exs.
Proof.
  intros Hg H1 H2 (dfs1 & Hdfs1 & Hne1 & Hok1 & ->)%load_scone_sources
    (dfs2 & Hdfs2 & Hne2 & Hok2 & ->)%load_scone_sources.
  assert (Hsrc : source_rows fs dirname
                 = source_rows fs1 dirname1 ++ source_rows fs2 dirname2).
  { unfold source_rows. rewrite Hg, bind_app.
    f_equal; apply bind_ext_elem_of; intros p Hp; [by rewrite H1|by rewrite H2]. }
  exists (example_in (dfs1 ++ dfs2) <$> source_rows fs dirname). split.
  - apply load_scone_sources. exists (dfs1 ++ dfs2).
    split; [|split; [by destruct dfs1|split; [|done]]].
    + unfold read_frames in *. rewrite Hg. apply mapM_result_Ok.
      apply mapM_result_Ok in Hdfs1, Hdfs2.
      apply Forall2_app; by eapply read_frames_ext.
    + rewrite Hsrc. apply Forall_app. split.
      * eapply Forall_impl; [exact Hok1|]. intros src.
        apply source_ok_more_columns, union_columns_app_l.
      * eapply Forall_impl; [exact Hok2|]. intros src.
        apply source_ok_more_columns, union_columns_app_r.
  - rewrite Hsrc, fmap_app.
    apply Forall2_app; apply Forall2_fmap, Forall_Forall2_diag, Forall_forall;
      intros src _; apply example_in_same.
Qed.

Lemma load_scone_app_witness :
  exists exs,
    load_scone train_dir "train" = Ok exs /\
    Forall2 same_example
      ((example_of_source <$> source_rows one_scoped_dir "train")
       ++ (example_of_source <$> source_rows no_negation_dir "train")) exs.
Proof.
  apply (load_scone_app one_scoped_dir no_negation_dir train_dir "train" "train" "train");
    [reflexivity| | |vm_compute; reflexivity|vm_compute; reflexivity].
  - intros p Hp. apply list_elem_of_singleton in Hp as ->. reflexivity.
  - intros p Hp. apply list_elem_of_singleton in Hp as ->. reflexivity.
Defined.

Lemma Forall2_Permutation_l {A B} (P : A -> B -> Prop) l l' k :
  l ≡ₚ l' -> Forall2 P l k -> exists k', Forall2 P l' k' /\ k ≡ₚ k'.
Proof.
  intros Hl. revert k. induction Hl as [|x l l' _ IH|x y l|l l1 l' _ IH1 _ IH2]; intros k H.
  - exists k. by split.
  - apply Forall2_cons_inv_l in H as (b & k0 & Hb & Hk0 & ->).
    destruct (IH _ Hk0) as (k' & ? & ?). exists (b :: k'). split; [by constructor|].
    by constructor.
  - apply Forall2_cons_inv_l in H as (b & k0 & Hb & Hk0 & ->).
    apply Forall2_cons_inv_l in Hk0 as (a & k1 & Ha & Hk1 & ->).
    exists (a :: b :: k1). split; [by repeat constructor|]. apply perm_swap.
  - destruct (IH1 _ H) as (k1 & H1 & ?). destruct (IH2 _ H1) as (k2 & ? & ?).
    exists k2. split; [done|]. by etrans.
Qed.

Lemma union_columns_Permutation dfs dfs' k :
  dfs ≡ₚ dfs' -> k ∈ union_columns dfs -> k ∈ union_columns dfs'.
Proof.
  intros Hp. rewrite !elem_of_union_columns. intros (df & ? & ?). exists df.
  split; [|done]. by rewrite <-Hp.
Qed.

(** The dtype of a column of the concatenation does not depend on the
    order of the frames. *)
Lemma result_dtype_Permutation dfs dfs' k :
  dfs ≡ₚ dfs' -> result_dtype dfs k = result_dtype dfs' k.
Proof.
  unfold result_dtype. induction 1 as [|df l l' _ IH|df1 df2 l|l l1 l' _ IH1 _ IH2].
  - done.
  - simpl. by rewrite IH.
  - simpl. by destruct (column_dtype df1 k), (column_dtype df2 k), (foldr _ _ l).
  - by etrans.
Qed.

Lemma example_in_Permutation dfs dfs' src :
  dfs ≡ₚ dfs' -> example_in dfs src = example_in dfs' src.
Proof.
  intros Hp. destruct src as [[filename df] r]. unfold example_in.
  by rewrite (result_dtype_Permutation _ _ _ Hp).
Qed.

(** X3. The order in which [glob] lists the files decides the order of
    the Examples and nothing else: listed in another order, the same
    files load as a permutation of the same Examples. *)
Theorem load_scone_any_order fs fs' dirname dirname' exs :
  glob fs (dirname +:+ "/*.csv") ≡ₚ glob fs' (dirname' +:+ "/*.csv") ->
  (forall p, read_csv fs' p = read_csv fs p) ->
  load_scone fs dirname = Ok exs ->
  exists exs', load_scone fs' dirname' = Ok exs' /\ exs ≡ₚ exs'.
Proof.
  intros Hg Hsame (dfs & Hdfs & Hne & Hok & ->)%load_scone_sources.
  unfold read_frames in Hdfs. apply mapM_result_Ok in Hdfs.
  destruct (Forall2_Permutation_l _ _ _ _ Hg Hdfs) as (dfs' & Hdfs' & Hperm).
  assert (Hsrc : source_rows fs dirname ≡ₚ source_rows fs' dirname').
  { unfold source_rows. rewrite Hg.
    erewrite list_bind_ext; [reflexivity| |reflexivity].
    intros p. cbv beta. by rewrite Hsame. }
  exists (example_in dfs' <$> source_rows fs' dirname'). split.
  - apply load_scone_sources. exists dfs'. split; [|split; [|split; [|done]]].
    + apply mapM_result_Ok. eapply Forall2_impl; [exact Hdfs'|].
      intros p b Hb. unfold read_frame in *. by rewrite Hsame.
    + intros ->. by apply Permutation_nil_r in Hperm.
    + rewrite <-Hsrc. eapply Forall_impl; [exact Hok|]. intros src.
      apply source_ok_more_columns. intros k. by apply union_columns_Permutation.
  - rewrite <-Hsrc.
    assert (example_in dfs <$> source_rows fs dirname
            = example_in dfs' <$> source_rows fs dirname) as ->; [|done].
    apply Forall_fmap_ext_1, Forall_forall. intros src _.
    by apply example_in_Permutation.
Qed.

Lemma load_scone_any_order_witness :
  exists exs',
    load_scone train_dir_reversed "train" = Ok exs' /\
    example_of_source <$> source_rows train_dir "train" ≡ₚ exs'.
Proof.
  apply (load_scone_any_order train_dir train_dir_reversed "train" "train").
  - apply perm_swap.
  - intros p. cbn [read_csv train_dir train_dir_reversed directory lookup_file].
    destruct (String.eqb_spec "train/no_negation.csv" p) as [<-|_]; [reflexivity|].
    by destruct (String.eqb "train/one_scoped.csv" p).
  - vm_compute. reflexivity.
Defined.

(** ** Exceptions of the loader *)

Lemma as_example_raises row e :
  as_example row = Raise e -> raise_cause row e.
Proof.
  rewrite as_example_cases. cbv zeta. unfold raise_cause, source_columns.
  by_column row "category".
  2: { intros [= <-]. left. exists "category". repeat split; [left|done]. }
  by_column row (hypothesis_column (cell row "category")).
  2: { intros [= <-]. left. eexists. repeat split; [|done]. right. right. left. }
  destruct (hypothesis_field row) as [[|c t]| | |] eqn:Hh.
  - intros [= <-]. right. left. done.
  - by_column row (gold_label_column (cell row "category")).
    2: { intros [= <-]. left. eexists. repeat split; [|done]. do 3 right. left. }
    by_column row (premise_column (cell row "category")); [done|].
    intros [= <-]. left. eexists. repeat split; [|done]. right. left.
  - intros [= <-]. right. right. done.
  - intros [= <-]. right. right. done.
  - intros [= <-]. right. right. done.
Qed.

(** X4. [as_example] raises three kinds of exception and no other:
    [KeyError] for [category] or a column of the category that the frame
    lacks, [IndexError] for the empty hypothesis, [TypeError] for a
    hypothesis that is not a [str], as the [nan] of a missing value. *)
Theorem as_example_raise_cause row e :
  as_example row = Raise e -> raise_cause row e.
Proof. apply as_example_raises. Qed.

Lemma as_example_raise_cause_witness :
  as_example nan_hypothesis_row = Raise TypeError /\
  raise_cause nan_hypothesis_row TypeError.
Proof.
  split; [reflexivity|].
  apply (as_example_raise_cause nan_hypothesis_row TypeError). reflexivity.
Defined.

Lemma mapM_result_first_raise {A B} (f : A -> result B) l1 a l2 e :
  Forall (fun x => exists b, f x = Ok b) l1 ->
  f a = Raise e ->
  mapM_result f (l1 ++ a :: l2) = Raise e.
Proof.
  intros H Ha. induction H as [|x l1 [b Hb] _ IH].
  - simpl. by rewrite Ha.
  - simpl. rewrite Hb. simpl. by rewrite IH.
Qed.

(** X5. When files cannot be read, [load_scone] raises the exception of
    the first of them in the order of [glob], whatever the files after it
    hold. *)
Theorem load_scone_first_unreadable fs dirname before path after e :
  glob fs (dirname +:+ "/*.csv") = before ++ path :: after ->
  (forall p, p ∈ before -> exists df, read_csv fs p = Ok df) ->
  read_csv fs path = Raise e ->
  load_scone fs dirname = Raise e.
Proof.
  intros Hg Hbefore Hpath. unfold load_scone, read_frames. rewrite Hg.
  rewrite (mapM_result_first_raise _ _ _ _ e); [done| |].
  - apply Forall_forall. intros p Hp. destruct (Hbefore p Hp) as [df Hdf].
    unfold read_frame. rewrite Hdf. by eexists.
  - unfold read_frame. by rewrite Hpath.
Qed.

Lemma load_scone_first_unreadable_witness :
  load_scone unreadable_dir "train" = Raise (ParserError "train/no_negation.csv").
Proof.
  apply (load_scone_first_unreadable unreadable_dir "train"
           ["train/one_scoped.csv"] "train/no_negation.csv"
           ["train/one_not_scoped.csv"]); [reflexivity| |reflexivity].
  intros p Hp. apply list_elem_of_singleton in Hp as ->. by eexists.
Defined.

(** X6. With the files read, [load_scone] raises the exception of the
    first row, in the order of the files, on which [as_example] raises:
    the rows after it are not looked at, and the cause is one of those of
    [as_example]. *)
Theorem load_scone_first_bad_row fs dirname dfs before row after e :
  read_frames fs dirname = Ok dfs ->
  data_rows dfs = before ++ row :: after ->
  Forall loadable before ->
  as_example row = Raise e ->
  load_scone fs dirname = Raise e /\ raise_cause row e.
Proof.
  intros Hdfs Hrows Hbefore He. split; [|by apply as_example_raises].
  unfold load_scone. rewrite Hdfs. cbn [mbind result_bind].
  destruct dfs as [|df dfs]; [by destruct before|].
  cbn [pd_concat mbind result_bind]. unfold apply_rows.
  change (iterrows _) with (data_rows (df :: dfs)). rewrite Hrows.
  apply mapM_result_first_raise; [|done].
  eapply Forall_impl; [exact Hbefore|]. intros r. apply as_example_loadable.
Qed.

Lemma load_scone_first_bad_row_witness :
  load_scone no_hypothesis_dir "train" = Raise TypeError /\
  exists row, raise_cause row TypeError /\ hypothesis_field row = VNaN.
Proof.
  pose (dfs := [setitem no_negation_csv "category" (VStr "no_negation");
                setitem no_hypothesis_csv "category" (VStr "one_not_scoped")]).
  destruct (load_scone_first_bad_row no_hypothesis_dir "train" dfs
              (take 1 (data_rows dfs))
              {| index := union_columns dfs;
                 cell := reindex dfs (setitem no_hypothesis_csv "category"
                                        (VStr "one_not_scoped"))
                           (fun k => if String.eqb k "category"
                                     then VStr "one_not_scoped"
                                     else row_of [("sentence1_edited",
                                                   VStr "The boy did not see a bird.");
                                                  ("gold_label_edited", VStr "neutral")] k) |}
              [] TypeError) as [Hload Hcause].
  - reflexivity.
  - reflexivity.
  - repeat constructor. apply as_example_loadable. eexists. vm_compute. reflexivity.
  - reflexivity.
  - split; [exact Hload|]. eexists. split; [exact Hcause|]. reflexivity.
Defined.

(** ** What every Example satisfies *)

Lemma loaded_well_formed fs dirname exs :
  load_scone fs dirname = Ok exs -> Forall well_formed exs.
Proof.
  intros (dfs & _ & _ & Hok & ->)%load_scone_sources.
  apply Forall_fmap. eapply Forall_impl; [exact Hok|].
  intros [[filename df] r] (_ & _ & c & t & Hh).
  unfold well_formed, compose, example_in, example_of_source.
  cbn [answer question category input_keys]. rewrite Hh.
  split; [|split; [|split]].
  - destruct (eq_str _ "entailment"); auto.
  - by exists c, t.
  - by eexists.
  - reflexivity.
Qed.

(** X7. Every Example that [load_scone] returns has the answer "Yes" or
    "No", a question built by [question_of], a [str] as category and the
    input keys [context] and [question], which are the input fields of
    [ScoNeSignature]. *)
Theorem load_scone_well_formed fs dirname exs :
  load_scone fs dirname = Ok exs -> Forall well_formed exs.
Proof. apply loaded_well_formed. Qed.

Lemma load_scone_well_formed_witness :
  exists exs, load_scone train_dir "train" = Ok exs /\ Forall well_formed exs.
Proof.
  eexists. split; [vm_compute; reflexivity|].
  apply (load_scone_well_formed train_dir "train"). vm_compute. reflexivity.
Defined.

(** ** The cells around the loader *)

Lemma train_dev_split (G : Generator) {A} (all_train : list A) :
  exists (train dev rest : list A) g',
    (forall g0, train_dev G all_train g0 = (Ok (train, dev), g')) /\
    length train = 200 `min` length all_train /\
    length dev = 50 `min` (length all_train - 200) /\
    train ++ dev ++ rest ≡ₚ all_train.
Proof.
  destruct (shuffle_Ok G all_train (seed G 1)) as (x & g' & Hsh & Hx).
  exists (take 200 x), (take 50 (drop 200 x)), (drop 250 x), g'.
  split; [|split; [|split]].
  - intros g0. unfold train_dev. by rewrite Hsh.
  - by rewrite length_take, Hx.
  - by rewrite length_take, length_drop, Hx.
  - rewrite <-Hx. change 250 with (200 + 50) at 1.
    by rewrite <-drop_drop, !take_drop.
Qed.

(** X8. On a list of any length the split raises nothing: train is the
    first 200 elements of the shuffled list, or all of them when there
    are fewer, dev the next 50, or what is left of them, and train, dev
    and the elements past the first 250 are together a permutation of the
    list. The state of the generator before the cell has no effect. *)
Theorem train_dev_any_length (G : Generator) {A} (all_train : list A) :
  exists (train dev rest : list A) g',
    (forall g0, train_dev G all_train g0 = (Ok (train, dev), g')) /\
    length train = 200 `min` length all_train /\
    length dev = 50 `min` (length all_train - 200) /\
    train ++ dev ++ rest ≡ₚ all_train.
Proof. apply train_dev_split. Qed.

Lemma list_filter_fmap' {A B} (f : A -> B) (P : B -> Prop) `{!forall x, Decision (P x)}
    (l : list A) :
  filter P (f <$> l) = f <$> filter (fun a => P (f a)) l.
Proof.
  induction l as [|a l IH]; [done|]. rewrite fmap_cons, !filter_cons.
  destruct (decide (P (f a))); by rewrite IH.
Qed.

(** X9. When the test cell returns, the generator is in the state of seed
    1 and the test set holds, in the order of the files, one Example for
    each row of the files whose name gives the category [one_scoped] and
    none for the rows of the other files, which are read and then left
    out. Every Example kept has the category [one_scoped], its question
    and answer come from [sentence2] and [gold_label] of its row, and its
    context is [sentence1] of its row or, for an int, the float it is
    cast to. *)
Theorem test_cell_one_scoped (G : Generator) fs (g g' : gen_state G) test :
  test_cell G fs g = (Ok test, g') ->
  g' = seed G 1 /\
  Forall (fun e => category e = VStr "one_scoped") test /\
  Forall2 (fun src e =>
             upcast_of (own_cell src.1.2 src.2 "sentence1") (context e) /\
             question e = match own_cell src.1.2 src.2 "sentence2" with
                          | VStr (String c t) => question_of c t
                          | _ => EmptyString
                          end /\
             answer e = (if eq_str (own_cell src.1.2 src.2 "gold_label") "entailment"
                         then "Yes" else "No"))
          (filter (fun src => category_of src.1.1 = "one_scoped")
                  (source_rows fs "ScoNe/scone_nli/test"))
          test.
Proof.
  unfold test_cell.
  destruct (load_scone fs "ScoNe/scone_nli/test") as [exs|e] eqn:Hload; [|done].
  intros [= <- <-]. split; [done|].
  apply load_scone_sources in Hload as (dfs & _ & _ & _ & ->).
  rewrite list_filter_fmap'.
  assert (Hiff : forall src : string * DataFrame * (string -> value),
            eq_str (category (example_in dfs src)) "one_scoped" = true
            <-> category_of src.1.1 = "one_scoped").
  { intros [[filename df] r]. unfold example_in.
    cbn [category eq_str fst]. apply String.eqb_eq. }
  rewrite (list_filter_iff _ _ _ Hiff). split.
  - apply Forall_fmap, Forall_forall.
    intros [[filename df] r] [Hc _]%list_elem_of_filter. cbn [fst] in Hc.
    unfold example_in. cbn [category compose]. by rewrite Hc.
  - apply Forall2_fmap_r, Forall_Forall2_diag, Forall_forall.
    intros [[filename df] r] [Hc _]%list_elem_of_filter. cbn [fst snd] in *.
    unfold compose. cbn [example_in example_of_source context question answer].
    rewrite Hc. split; [apply astype_upcast|done].
Qed.

Lemma test_cell_one_scoped_witness :
  exists test,
    test_cell lcg test_dir 7 = (Ok test, seed lcg 1) /\
    length test = 2 /\
    Forall (fun e => category e = VStr "one_scoped") test.
Proof.
  eexists. split; [vm_compute; reflexivity|]. split; [reflexivity|].
  apply (test_cell_one_scoped lcg test_dir 7 (seed lcg 1)). vm_compute. reflexivity.
Defined.

(** X11. When the train directory loads with at least 250 rows, the
    train cell returns 200 train and 50 dev Examples whatever state the
    generator was in; together they are a part of the Examples loaded,
    none of them taken twice, and each is well formed. *)
Theorem train_cell_sizes (G : Generator) fs (g : gen_state G) all_train :
  load_scone fs "ScoNe/scone_nli/train" = Ok all_train ->
  250 <= length all_train ->
  exists train dev g',
    (forall g0, train_cell G fs g0 = (Ok (train, dev), g')) /\
    length train = 200 /\
    length dev = 50 /\
    train ++ dev ⊆+ all_train /\
    Forall well_formed (train ++ dev).
Proof.
  intros Hload Hlen.
  destruct (train_dev_split G all_train)
    as (train & dev & rest & g' & Hrun & Htrain & Hdev & Hperm).
  assert (Hsub : train ++ dev ⊆+ all_train).
  { rewrite <-Hperm, (assoc_L (++)). by apply submseteq_inserts_r. }
  exists train, dev, g'. split; [|split; [lia|split; [lia|split; [done|]]]].
  - intros g0. unfold train_cell. rewrite Hload. apply Hrun.
  - apply Forall_forall. intros e He.
    pose proof (loaded_well_formed _ _ _ Hload) as Hwf.
    eapply Forall_forall in Hwf; [done|]. by eapply elem_of_submseteq.
Qed.

Lemma train_cell_sizes_witness :
  exists train dev g',
    (forall g0, train_cell lcg large_train_dir g0 = (Ok (train, dev), g')) /\
    length train = 200 /\
    length dev = 50 /\
    train ++ dev
      ⊆+ example_of_source <$> source_rows large_train_dir "ScoNe/scone_nli/train" /\
    Forall well_formed (train ++ dev).
Proof.
  apply (train_cell_sizes lcg large_train_dir 0
           (example_of_source <$> source_rows large_train_dir "ScoNe/scone_nli/train")).
  - vm_compute. reflexivity.
  - vm_compute. done.
Defined.

(** ** File names and hypotheses *)

Module NameFacts.
Import Str StrFacts.

Lemma mem_append c s u : mem c (s +:+ u) = mem c s || mem c u.
Proof.
  induction s as [|a s IH]; [done|].
  rewrite append_cons. cbn [mem]. by rewrite IH, orb_assoc.
Qed.

Lemma basename_append d b :
  mem "/" b = false -> basename (d +:+ "/" +:+ b) = b.
Proof.
  intros Hb. induction d as [|c d IH].
  - rewrite append_nil, append_cons, append_nil. cbn [basename]. by rewrite Hb.
  - rewrite append_cons. cbn [basename].
    by rewrite mem_append, append_cons, orb_true_r.
Qed.

Lemma remove_extension name :
  mem "." name = false -> remove ".csv" (name +:+ ".csv") = name.
Proof.
  unfold remove. induction name as [|c name IH]; [done|].
  cbn [mem]. intros [Hc Hn]%orb_false_elim.
  rewrite append_cons. cbn [remove_from starts_with].
  rewrite Hc. cbn [andb]. by rewrite IH.
Qed.

Lemma rstrip_append_periods s n : rstrip "." (s +:+ periods n) = rstrip "." s.
Proof.
  induction s as [|a s IH].
  - rewrite append_nil. induction n as [|n IHn]; [done|].
    cbn [periods rstrip]. by rewrite IHn.
  - rewrite append_cons. cbn [rstrip]. by rewrite IH.
Qed.

Lemma lstrip_append_periods s n :
  exists m, lstrip "." (s +:+ periods n) = lstrip "." s +:+ periods m.
Proof.
  induction s as [|a s IH].
  - exists 0. rewrite append_nil. induction n as [|n IHn]; [done|].
    cbn [periods lstrip]. by rewrite IHn.
  - rewrite append_cons. cbn [lstrip]. destruct (mem a "."); [done|].
    exists n. by rewrite append_cons.
Qed.

Lemma strip_append_periods s n : strip "." (s +:+ periods n) = strip "." s.
Proof.
  unfold strip. destruct (lstrip_append_periods s n) as [m ->].
  apply rstrip_append_periods.
Qed.

End NameFacts.

(** X10. A file [name.csv] in a directory, with a name that holds no
    slash and no period, gets the category [name], whatever the path of
    the directory; so among such files [one_scoped.csv] is the one that
    is read from the columns without suffix. *)
Theorem category_of_plain_name dirname name :
  Str.mem "/" name = false ->
  Str.mem "." name = false ->
  category_of (dirname +:+ "/" +:+ name +:+ ".csv") = name /\
  (suffix_of (VStr (category_of (dirname +:+ "/" +:+ name +:+ ".csv"))) = ""
   <-> name = "one_scoped").
Proof.
  intros Hs Hp.
  assert (category_of (dirname +:+ "/" +:+ name +:+ ".csv") = name) as ->.
  { unfold category_of. rewrite NameFacts.basename_append.
    - by apply NameFacts.remove_extension.
    - by rewrite NameFacts.mem_append, Hs. }
  split; [done|]. unfold suffix_of. cbn [eq_str].
  destruct (String.eqb_spec name "one_scoped"); split; done.
Qed.

Lemma category_of_plain_name_witness :
  category_of ("ScoNe/scone_nli/train" +:+ "/" +:+ "one_not_scoped" +:+ ".csv")
  = "one_not_scoped" /\
  (suffix_of (VStr (category_of
                      ("ScoNe/scone_nli/train" +:+ "/" +:+ "one_not_scoped" +:+ ".csv")))
   = "" <-> "one_not_scoped" = "one_scoped").
Proof.
  apply (category_of_plain_name "ScoNe/scone_nli/train" "one_not_scoped"); reflexivity.
Defined.

(** X12. Periods at the end of a hypothesis and the case of its first
    character do not show in the question: two rows whose hypotheses
    differ in these alone get the same question. *)
Theorem question_ignores_final_periods row row' c c' t n e e' :
  as_example row = Ok e ->
  as_example row' = Ok e' ->
  hypothesis_field row = VStr (String c t) ->
  hypothesis_field row' = VStr (String c' (t +:+ periods n)) ->
  Str.lower_char c = Str.lower_char c' ->
  question e = question e'.
Proof.
  intros (_ & _ & c0 & t0 & Hh & ->)%as_example_Ok
    (_ & _ & c1 & t1 & Hh' & ->)%as_example_Ok Hrow Hrow' Hc.
  rewrite Hrow in Hh. rewrite Hrow' in Hh'.
  injection Hh as <- <-. injection Hh' as <- <-.
  cbn [question]. unfold question_of.
  by rewrite Hc, NameFacts.strip_append_periods.
Qed.

Lemma question_ignores_final_periods_witness :
  exists e e',
    as_example dog_row = Ok e /\
    as_example dog_sentence_row = Ok e' /\
    question e = question e'.
Proof.
  eexists _, _. split; [reflexivity|]. split; [reflexivity|].
  apply (question_ignores_final_periods dog_row dog_sentence_row
           "t" "T" "here is not a single dog" 1); reflexivity.
Defined.
